(** * Insider acceptance-test harness and cluster provisioning: a shallow embedding

    Two Python programs are embedded here:

    - [Node-count-automatic-k8s-resources.py], the provisioning controller
      (module [K8s]);
    - [Insider-test-success.py], the Selenium page objects and the test-run
      controller (module [Insider]).

    Both talk to an external service (the Kubernetes API, a remote browser).
    The service is an interface: a record of operations over an abstract
    service state, each returning a value or raising.  The Python code on
    top of it is written in a state-and-exception monad, and every call to
    the service, every log record, every [time.sleep] and every assignment to
    the verdict dictionary is appended to a history kept next to the service
    state, so that theorems can speak about what was called, how often and in
    which order. *)

From Stdlib Require Import ZArith List String Ascii Bool Lia QArith.
From Stdlib Require Import DecimalString.
Import ListNotations.

Set Implicit Arguments.
Set Warnings "-register-all".

Open Scope string_scope.
Open Scope Z_scope.

(** ** Python values shared by both programs *)

(** [str(n)] of a Python [int]. *)
Definition str_of_int (n : Z) : string := NilZero.string_of_int (Z.to_int n).

(** The line feed written ["\n"] in the source. *)
Definition nl : string := String (ascii_of_nat 10) EmptyString.

(** The builtins [max(a, b)] and [min(a, b)] on integers: the first argument
    is kept unless the second is strictly greater (resp. smaller). *)
Definition py_max (a b : Z) : Z := if a <? b then b else a.
Definition py_min (a b : Z) : Z := if b <? a then b else a.

(** [range(n)]: empty when [n <= 0]. *)
Definition range (n : Z) : list Z := map Z.of_nat (seq 0 (Z.to_nat n)).

(** [x or d] for an [Optional[int]]: [None] and [0] are both falsy. *)
Definition py_or (x : option Z) (d : Z) : Z :=
  match x with
  | Some t => if t =? 0 then d else t
  | None => d
  end.

(** [all(xs)] on a list of booleans. *)
Definition py_all (xs : list bool) : bool := forallb (fun b => b) xs.

(** [repr(s)] of a [str], as [str(KeyError(s))] and the message of [int(s)]
    show it.  The text is put between single quotes, or between double
    quotes when it holds a single quote and no double quote; a backslash and
    the quote in use are escaped with a backslash; tab, line feed and
    carriage return are written [\t], [\n], [\r]; the other control
    characters and DEL are written [\xNN].  Strings are sequences of bytes
    here: the bytes from 128 on, which encode the characters beyond ASCII,
    are copied, as [repr] does for printable characters. *)
Definition single_quote : ascii := ascii_of_nat 39.
Definition double_quote : ascii := ascii_of_nat 34.
Definition backslash : ascii := ascii_of_nat 92.

Fixpoint has_char (c : ascii) (s : string) : bool :=
  match s with
  | EmptyString => false
  | String c' s' => Ascii.eqb c' c || has_char c s'
  end.

Definition hex_digit (n : nat) : ascii :=
  if (n <? 10)%nat then ascii_of_nat (48 + n) else ascii_of_nat (87 + n).

Definition repr_char (quote c : ascii) : string :=
  let n := nat_of_ascii c in
  if Ascii.eqb c quote || Ascii.eqb c backslash then String backslash (String c EmptyString)
  else if (n =? 9)%nat then String backslash "t"
  else if (n =? 10)%nat then String backslash "n"
  else if (n =? 13)%nat then String backslash "r"
  else if (n <? 32)%nat || (n =? 127)%nat then
    String backslash
      (String "x" (String (hex_digit (n / 16)) (String (hex_digit (n mod 16)) EmptyString)))
  else String c EmptyString.

Fixpoint repr_chars (quote : ascii) (s : string) : string :=
  match s with
  | EmptyString => EmptyString
  | String c s' => repr_char quote c ++ repr_chars quote s'
  end.

Definition py_repr (s : string) : string :=
  let quote :=
    if has_char single_quote s && negb (has_char double_quote s)
    then double_quote else single_quote in
  String quote (repr_chars quote s ++ String quote EmptyString).

(** Logging levels used by the two programs. *)
Inductive level := INFO | WARNING | ERROR.

(** A [dict] with string keys keeps its insertion order; assigning to a key
    that is already present replaces the value in place. *)
Section Dict.
Variable V : Type.

Definition dict := list (string * V).

Fixpoint dict_set (d : dict) (k : string) (v : V) : dict :=
  match d with
  | [] => [(k, v)]
  | (k', v') :: d' =>
      if String.eqb k' k then (k', v) :: d' else (k', v') :: dict_set d' k v
  end.

Fixpoint dict_get (d : dict) (k : string) : option V :=
  match d with
  | [] => None
  | (k', v') :: d' => if String.eqb k' k then Some v' else dict_get d' k
  end.

Definition keys (d : dict) : list string := map fst d.
End Dict.

(** ** State and exceptions *)

(** What a call produces: a value, or a raised exception. *)
Inductive outcome (E A : Type) : Type :=
| Ret (a : A)
| Raise (e : E).
Arguments Ret {E A} a.
Arguments Raise {E A} e.

(** A computation over a state [S] that may raise an [E].  The state after a
    raise is kept: effects performed before the raise are not undone. *)
Definition ST (E S A : Type) : Type := S -> outcome E A * S.

Section Monad.
Variables E S : Type.

Definition ret {A} (a : A) : ST E S A := fun s => (Ret a, s).

Definition raise {A} (e : E) : ST E S A := fun s => (Raise e, s).

Definition bind {A B} (m : ST E S A) (k : A -> ST E S B) : ST E S B :=
  fun s =>
    match m s with
    | (Ret a, s') => k a s'
    | (Raise e, s') => (Raise e, s')
    end.

(** [try: m  except ...: h].  The handler [h] answers [None] for an
    exception that none of the [except] clauses matches; it then keeps
    propagating. *)
Definition try_except {A} (m : ST E S A) (h : E -> option (ST E S A)) : ST E S A :=
  fun s =>
    match m s with
    | (Ret a, s') => (Ret a, s')
    | (Raise e, s') =>
        match h e with
        | Some k => k s'
        | None => (Raise e, s')
        end
    end.

(** [try: m  finally: f].  The [finally] block always runs; when it raises,
    its exception replaces the outcome of the body. *)
Definition try_finally {A} (m : ST E S A) (f : ST E S unit) : ST E S A :=
  fun s =>
    match m s with
    | (r, s') =>
        match f s' with
        | (Ret _, s'') => (r, s'')
        | (Raise e, s'') => (Raise e, s'')
        end
    end.

(** [if c: m] with no [else]. *)
Definition when (c : bool) (m : ST E S unit) : ST E S unit :=
  if c then m else ret tt.
End Monad.

Arguments ret {E S A} a.
Arguments raise {E S A} e.
Arguments bind {E S A B} m k.
Arguments try_except {E S A} m h.
Arguments try_finally {E S A} m f.
Arguments when {E S} c m.

Declare Scope py_scope.
Delimit Scope py_scope with py.
Notation "x <- m ;; k" := (bind m (fun x => k))
  (at level 61, m at next level, right associativity) : py_scope.
Notation "m ;; k" := (bind m (fun _ => k))
  (at level 61, right associativity) : py_scope.
Open Scope py_scope.

(** * The provisioning controller *)

Module K8s.

(** Exceptions the program distinguishes.  [sys.exit(1)] raises [SystemExit],
    which [except ApiException] does not catch and a bare [except:] does. *)
Inductive exn :=
| ApiException (reason : string)
| ConfigException (reason : string)
| ValueError (reason : string)
| SystemExit (code : Z).

(** [str(e)], as interpolated in the log messages. *)
Definition str (e : exn) : string :=
  match e with
  | ApiException r => r
  | ConfigException r => r
  | ValueError r => r
  | SystemExit c => str_of_int c
  end.

(** Manifests are nested dict, list, string and integer literals. *)
Inductive manifest :=
| MStr (s : string)
| MInt (n : Z)
| MDict (fields : list (string * manifest))
| MList (items : list manifest).

(** Calls to the [kubernetes] client library. *)
Inductive api_call :=
| load_incluster_config_call
| load_kube_config_call
| create_namespaced_deployment_call (namespace : string) (body : manifest)
| create_namespaced_service_call (namespace : string) (body : manifest)
| create_namespaced_horizontal_pod_autoscaler_call (namespace : string) (body : manifest).

Inductive event :=
| Call (c : api_call)
| Log (l : level) (msg : string).

(** The client library over a cluster state [K]. *)
Class ApiClient (K : Type) := {
  load_incluster_config : K -> outcome exn unit * K;
  load_kube_config : K -> outcome exn unit * K;
  create_namespaced_deployment : string -> manifest -> K -> outcome exn unit * K;
  create_namespaced_service : string -> manifest -> K -> outcome exn unit * K;
  create_namespaced_horizontal_pod_autoscaler :
    string -> manifest -> K -> outcome exn unit * K
}.

(** [self.node_count]; the logger and the three API handles of the object
    carry no state of their own. *)
Record KubernetesTestController := { node_count : Z }.

Section Controller.
Context {K : Type} {api : ApiClient K}.

(** [int(s)] on the text of an environment variable: [None] stands for
    the [ValueError] of a text that is not an integer literal. *)
Variable py_int : string -> option Z.

Record world := { cluster : K; events : list event }.

Definition M := ST exn world.

(** Dispatch of a call to the client library. *)
Definition perform (c : api_call) : K -> outcome exn unit * K :=
  match c with
  | load_incluster_config_call => load_incluster_config
  | load_kube_config_call => load_kube_config
  | create_namespaced_deployment_call ns b => create_namespaced_deployment ns b
  | create_namespaced_service_call ns b => create_namespaced_service ns b
  | create_namespaced_horizontal_pod_autoscaler_call ns b =>
      create_namespaced_horizontal_pod_autoscaler ns b
  end.

Definition call (c : api_call) : M unit :=
  fun w =>
    let (r, k) := perform c (cluster w) in
    (r, {| cluster := k; events := events w ++ [Call c] |}).

Definition log (l : level) (msg : string) : M unit :=
  fun w => (Ret tt, {| cluster := cluster w; events := events w ++ [Log l msg] |}).

(** [KubernetesTestController.__init__] *)
Definition init (node_count : Z) : M KubernetesTestController :=
  let self := {| node_count := py_max 1 (py_min node_count 5) |} in
  try_except
    (call load_incluster_config_call ;;
     log INFO "Using in-cluster Kubernetes config")
    (fun _ => Some (log INFO "Falling back to local kubeconfig" ;;
                    call load_kube_config_call)) ;;
  ret self.

Definition chrome_deployment (self : KubernetesTestController) : manifest :=
  MDict [
    ("apiVersion", MStr "apps/v1");
    ("kind", MStr "Deployment");
    ("metadata", MDict [("name", MStr "chrome")]);
    ("spec", MDict [
      ("replicas", MInt (node_count self));
      ("selector", MDict [("matchLabels", MDict [("app", MStr "chrome")])]);
      ("template", MDict [
        ("metadata", MDict [("labels", MDict [("app", MStr "chrome")])]);
        ("spec", MDict [
          ("containers", MList [MDict [
            ("name", MStr "chrome");
            ("image", MStr "selenium/standalone-chrome:latest");
            ("ports", MList [MDict [("containerPort", MInt 4444)]]);
            ("resources", MDict [
              ("requests", MDict [("cpu", MStr "500m"); ("memory", MStr "512Mi")]);
              ("limits", MDict [("cpu", MStr "1000m"); ("memory", MStr "1Gi")])])]])])])])].

Definition chrome_service : manifest :=
  MDict [
    ("apiVersion", MStr "v1");
    ("kind", MStr "Service");
    ("metadata", MDict [("name", MStr "chrome")]);
    ("spec", MDict [
      ("selector", MDict [("app", MStr "chrome")]);
      ("ports", MList [MDict [("protocol", MStr "TCP"); ("port", MInt 4444);
                              ("targetPort", MInt 4444)]])])].

Definition chrome_hpa : manifest :=
  MDict [
    ("apiVersion", MStr "autoscaling/v1");
    ("kind", MStr "HorizontalPodAutoscaler");
    ("metadata", MDict [("name", MStr "chrome-hpa")]);
    ("spec", MDict [
      ("scaleTargetRef", MDict [("apiVersion", MStr "apps/v1");
                                ("kind", MStr "Deployment");
                                ("name", MStr "chrome")]);
      ("minReplicas", MInt 1);
      ("maxReplicas", MInt 5);
      ("targetCPUUtilizationPercentage", MInt 50)])].

Definition selenium_test_deployment : manifest :=
  MDict [
    ("apiVersion", MStr "apps/v1");
    ("kind", MStr "Deployment");
    ("metadata", MDict [("name", MStr "selenium-test")]);
    ("spec", MDict [
      ("replicas", MInt 1);
      ("selector", MDict [("matchLabels", MDict [("app", MStr "selenium-test")])]);
      ("template", MDict [
        ("metadata", MDict [("labels", MDict [("app", MStr "selenium-test")])]);
        ("spec", MDict [
          ("containers", MList [MDict [
            ("name", MStr "selenium-test");
            ("image", MStr "mcmusty212/selenium-test:1.0.0");
            ("env", MList [MDict [
              ("name", MStr "SELENIUM_REMOTE_URL");
              ("value", MStr "http://chrome:4444/wd/hub")]])]])])])])].

(** The clause [except ApiException as e]. *)
Definition except_ApiException {A} (h : exn -> M A) (e : exn) : option (M A) :=
  match e with
  | ApiException _ => Some (h e)
  | _ => None
  end.

(** [sys.exit(code)] *)
Definition sys_exit {A} (code : Z) : M A := raise (SystemExit code).

(** [KubernetesTestController.deploy_chrome] *)
Definition deploy_chrome (self : KubernetesTestController) : M unit :=
  try_except
    (log INFO ("Creating Chrome deployment with " ++ str_of_int (node_count self)
               ++ " replicas") ;;
     call (create_namespaced_deployment_call "default" (chrome_deployment self)) ;;
     log INFO "Creating Chrome service" ;;
     call (create_namespaced_service_call "default" chrome_service) ;;
     log INFO "Creating Chrome HPA" ;;
     call (create_namespaced_horizontal_pod_autoscaler_call "default" chrome_hpa))
    (except_ApiException (fun e =>
       log ERROR ("Failed to create Chrome resources: " ++ str e) ;;
       sys_exit 1)).

(** [KubernetesTestController.deploy_selenium_test] *)
Definition deploy_selenium_test (self : KubernetesTestController) : M unit :=
  try_except
    (log INFO "Creating Selenium test deployment" ;;
     call (create_namespaced_deployment_call "default" selenium_test_deployment))
    (except_ApiException (fun e =>
       log ERROR ("Failed to create Selenium Test Deployment: " ++ str e) ;;
       sys_exit 1)).

(** [KubernetesTestController.deploy_resources] *)
Definition deploy_resources (self : KubernetesTestController) : M unit :=
  deploy_chrome self ;;
  deploy_selenium_test self.

(** The message of the [ValueError] that [int(text)] raises for a text that
    is not an integer literal; the quoted text is cut after 200 characters. *)
Definition invalid_literal (text : string) : string :=
  "invalid literal for int() with base 10: " ++ String.substring 0 200 (py_repr text).

(** [main], given the text of [NODE_COUNT] in the environment, if set. *)
Definition main (NODE_COUNT : option string) : M unit :=
  let text := match NODE_COUNT with Some s => s | None => "1" end in
  node_count <- match py_int text with
                | Some n => ret n
                | None => raise (ValueError (invalid_literal text))
                end ;;
  controller <- init node_count ;;
  deploy_resources controller.

(** Exit status of the interpreter once [main] has ended. *)
Definition exit_status {A} (r : outcome exn A) : Z :=
  match r with
  | Ret _ => 0
  | Raise (SystemExit c) => c
  | Raise _ => 1
  end.

(** The create-resource calls of a deployment, in program order. *)
Definition create_calls (self : KubernetesTestController) : list api_call :=
  [ create_namespaced_deployment_call "default" (chrome_deployment self);
    create_namespaced_service_call "default" chrome_service;
    create_namespaced_horizontal_pod_autoscaler_call "default" chrome_hpa;
    create_namespaced_deployment_call "default" selenium_test_deployment ].

(** The cluster after the calls [cs] when each of them returns. *)
Fixpoint all_succeed (cs : list api_call) (k : K) : option K :=
  match cs with
  | [] => Some k
  | c :: cs' =>
      match perform c k with
      | (Ret _, k') => all_succeed cs' k'
      | (Raise _, _) => None
      end
  end.

(** The client calls recorded in a history, oldest first. *)
Fixpoint calls_of (evs : list event) : list api_call :=
  match evs with
  | [] => []
  | Call c :: evs' => c :: calls_of evs'
  | Log _ _ :: evs' => calls_of evs'
  end.

(** Whether the constructor finds a configuration: in-cluster, or else the
    local kubeconfig. *)
Definition config_loads (k : K) : bool :=
  match load_incluster_config k with
  | (Ret _, _) => true
  | (Raise _, k') =>
      match load_kube_config k' with
      | (Ret _, _) => true
      | (Raise _, _) => false
      end
  end.
(** [m[key]] on a manifest that is a dict. *)
Definition mget (m : manifest) (key : string) : option manifest :=
  match m with
  | MDict fields => dict_get fields key
  | _ => None
  end.

(** [m[k1][k2]...] *)
Fixpoint mpath (m : manifest) (path : list string) : option manifest :=
  match path with
  | [] => Some m
  | key :: path' =>
      match mget m key with
      | Some m' => mpath m' path'
      | None => None
      end
  end.

(** The error records of a history. *)
Definition error_logs (evs : list event) : list event :=
  filter (fun e => match e with Log ERROR _ => true | _ => false end) evs.
End Controller.

End K8s.

(** * The acceptance-test harness *)

Module Insider.

(** Exception classes the program tells apart.  All of them derive from
    [Exception], which is what the broad [except Exception] clauses catch;
    [WebDriverException] stands for any other error of the driver. *)
Inductive exn_class :=
| ElementClickInterceptedException
| TimeoutException
| KeyError
| IndexError
| ValueError
| OverflowError
| WebDriverException.

(** An exception object: its class and [str(e)]. *)
Record exn := { class_of : exn_class; str : string }.

(** [class TestResult(Enum)] *)
Inductive TestResult := PASSED | FAILED | SKIPPED.

(** [result.name] *)
Definition name_of (r : TestResult) : string :=
  match r with
  | PASSED => "PASSED"
  | FAILED => "FAILED"
  | SKIPPED => "SKIPPED"
  end.

Definition TestResult_eqb (a b : TestResult) : bool :=
  match a, b with
  | PASSED, PASSED | FAILED, FAILED | SKIPPED, SKIPPED => true
  | _, _ => false
  end.

(** Locator strategies and locators. *)
Inductive By := CLASS_NAME | XPATH | CSS_SELECTOR.
Definition locator : Type := By * string.

(** A [WebElement] and a window handle, as the remote end names them. *)
Definition element := nat.
Definition handle := string.

(** The conditions handed to [WebDriverWait(...).until]; the last one is the
    source's [lambda d: len(d.window_handles) > 1]. *)
Inductive condition :=
| presence_of_element_located (loc : locator)
| element_to_be_clickable (loc : locator)
| visibility_of_element_located (loc : locator)
| url_contains (fragment : string)
| more_than_one_window.

(** Calls to the Selenium library. *)
Inductive driver_call :=
| Remote_call (command_executor : string) (arguments : list string)
| get_call (url : string)
| find_elements_call (loc : locator)
| current_window_handle_call
| window_handles_call
| switch_to_window_call (h : handle)
| close_call
| quit_call
| execute_script_call (script : string) (el : element)
| click_call (el : element)
| until_call (timeout : Z) (c : condition).

(** What the program does to the outside, oldest first. *)
Inductive event :=
| Call (c : driver_call)
| Log (l : level) (msg : string)
| Sleep (seconds : Q)
| SetItem (key : string) (v : TestResult).

(** The Selenium library over the state [D] of the remote end.
    [until_located] is [until] on one of the three element conditions, which
    answers the element; [until_true] is [until] on the two others, which
    answers the truthy value the condition produced.  Both raise
    [TimeoutException] when the time is up. *)
Class WebDriver (D : Type) := {
  Remote : string -> list string -> D -> outcome exn unit * D;
  get : string -> D -> outcome exn unit * D;
  find_elements : locator -> D -> outcome exn (list element) * D;
  current_window_handle : D -> outcome exn handle * D;
  window_handles : D -> outcome exn (list handle) * D;
  switch_to_window : handle -> D -> outcome exn unit * D;
  close : D -> outcome exn unit * D;
  quit : D -> outcome exn unit * D;
  execute_script : string -> element -> D -> outcome exn unit * D;
  click : element -> D -> outcome exn unit * D;
  until_located : Z -> condition -> D -> outcome exn element * D;
  until_true : Z -> condition -> D -> outcome exn bool * D
}.

(** [BasePage]: the driver is the state; [self.timeout] is the only field
    the methods read. *)
Record BasePage := { timeout : Z }.

Section Pages.
Context {D : Type} {drv : WebDriver D}.

Record world := { browser : D; events : list event }.

Definition M := ST exn world.

Definition record (e : event) (w : world) : world :=
  {| browser := browser w; events := events w ++ [e] |}.

(** A call to the library: performed on the remote end and recorded. *)
Definition call {A} (c : driver_call) (op : D -> outcome exn A * D) : M A :=
  fun w =>
    let (r, d) := op (browser w) in
    (r, {| browser := d; events := events w ++ [Call c] |}).

Definition log (l : level) (msg : string) : M unit :=
  fun w => (Ret tt, record (Log l msg) w).

(** The longest sleep whose count of nanoseconds fits the 63 bits of the
    interpreter's timestamps, some 292 years. *)
Definition sleep_max : Q := 9223372036854775807 # 1000000000.

(** The lengths [time.sleep] takes. *)
Definition sleep_accepts (seconds : Q) : bool :=
  Qle_bool 0 seconds && Qle_bool seconds sleep_max.

(** [time.sleep(seconds)]: a negative length is refused with a
    [ValueError], a length beyond [sleep_max] with an [OverflowError]. *)
Definition sleep (seconds : Q) : M unit :=
  if Qle_bool 0 seconds then
    if Qle_bool seconds sleep_max
    then fun w => (Ret tt, record (Sleep seconds) w)
    else raise {| class_of := OverflowError;
                  str := "timestamp too large to convert to C _PyTime_t" |}
  else raise {| class_of := ValueError; str := "sleep length must be non-negative" |}.

(** The clauses [except Exception as e] and [except <class> as e]. *)
Definition except_Exception {A} (h : exn -> M A) (e : exn) : option (M A) :=
  Some (h e).

Definition is_class (c : exn_class) (e : exn) : bool :=
  match c, class_of e with
  | ElementClickInterceptedException, ElementClickInterceptedException
  | TimeoutException, TimeoutException
  | KeyError, KeyError
  | IndexError, IndexError
  | ValueError, ValueError
  | OverflowError, OverflowError
  | WebDriverException, WebDriverException => true
  | _, _ => false
  end.

Definition except_class {A} (c : exn_class) (h : exn -> M A) (e : exn) : option (M A) :=
  if is_class c e then Some (h e) else None.

(** [LOCATORS[key]], raising [KeyError(key)] on a missing key; its text is
    [repr(key)]. *)
Definition getitem (LOCATORS : dict locator) (key : string) : M locator :=
  match dict_get LOCATORS key with
  | Some loc => ret loc
  | None => raise {| class_of := KeyError; str := py_repr key |}
  end.

(** ** [WebDriverFactory] *)

Definition chrome_arguments (headless : bool) : list string :=
  (if headless then ["--headless"] else [])
  ++ ["--no-sandbox"; "--disable-dev-shm-usage"; "--start-maximized"].

(** [WebDriverFactory.create_chrome_driver] *)
Definition create_chrome_driver (headless : bool) : M unit :=
  let command_executor := "http://chrome:4444/wd/hub" in
  let chrome_options := chrome_arguments headless in
  call (Remote_call command_executor chrome_options)
       (Remote command_executor chrome_options).

(** ** [BasePage] *)

(** [BasePage.__init__(driver, timeout=20)] *)
Definition BasePage_init (timeout : Z) : BasePage := {| timeout := timeout |}.

Definition until_element (t : Z) (c : condition) : M element :=
  call (until_call t c) (until_located t c).

Definition until_bool (t : Z) (c : condition) : M bool :=
  call (until_call t c) (until_true t c).


(** [BasePage.find_clickable] *)
Definition find_clickable (self : BasePage) (loc : locator) (timeout_ : option Z)
  : M element :=
  until_element (py_or timeout_ (timeout self)) (element_to_be_clickable loc).

Definition scroll_script : string :=
  "arguments[0].scrollIntoView({block: 'center'});".

(** One iteration of the loop of [safe_click].  [Some b] is [return b] out
    of the function, [None] is falling through to the next iteration. *)
Definition safe_click_attempt (element_ : element) (retry_attempts : Z)
  (retry_delay : Q) (attempt : Z) : M (option bool) :=
  try_except
    (when (0 <? attempt) (sleep retry_delay) ;;
     call (click_call element_) (click element_) ;;
     ret (Some true))
    (fun e =>
       if is_class ElementClickInterceptedException e then
         Some (log WARNING ("Click intercepted, attempt " ++ str_of_int (attempt + 1)
                            ++ "/" ++ str_of_int retry_attempts) ;;
               call (execute_script_call scroll_script element_)
                    (execute_script scroll_script element_) ;;
               ret None)
       else
         Some (log ERROR ("Click failed: " ++ str e ++ ", attempt "
                          ++ str_of_int (attempt + 1) ++ "/"
                          ++ str_of_int retry_attempts) ;;
               if attempt =? retry_attempts - 1 then raise e else ret None)).

(** The [for attempt in ...] loop of [safe_click], then [return False]. *)
Fixpoint safe_click_loop (element_ : element) (retry_attempts : Z) (retry_delay : Q)
  (attempts : list Z) : M bool :=
  match attempts with
  | [] => ret false
  | attempt :: rest =>
      r <- safe_click_attempt element_ retry_attempts retry_delay attempt ;;
      match r with
      | Some b => ret b
      | None => safe_click_loop element_ retry_attempts retry_delay rest
      end
  end.

(** [BasePage.safe_click(element, retry_attempts=10, retry_delay=1.0)] *)
Definition safe_click (element_ : element) (retry_attempts : Z) (retry_delay : Q)
  : M bool :=
  safe_click_loop element_ retry_attempts retry_delay (range retry_attempts).

Definition safe_click_default (element_ : element) : M bool :=
  safe_click element_ 10 1%Q.

(** [BasePage.is_element_visible] *)
Definition is_element_visible (self : BasePage) (loc : locator) (timeout_ : option Z)
  : M bool :=
  try_except
    (until_element (py_or timeout_ (timeout self)) (visibility_of_element_located loc) ;;
     ret true)
    (except_class TimeoutException (fun _ => ret false)).

(** [BasePage.wait_for_url_contains] *)
Definition wait_for_url_contains (self : BasePage) (partial_url : string)
  (timeout_ : option Z) : M bool :=
  try_except
    (until_bool (py_or timeout_ (timeout self)) (url_contains partial_url) ;;
     ret true)
    (except_class TimeoutException (fun _ => ret false)).

(** ** [HomePage] *)

Definition HomePage_URL : string := "https://useinsider.com/".

Definition HomePage_LOCATORS : dict locator := [
  ("logo", (CLASS_NAME, "navbar-brand"));
  ("company_dropdown", (XPATH, "/html/body/nav/div[2]/div/ul[1]/li[6]/a"));
  ("careers_link", (XPATH, "//a[contains(text(), 'Careers')]"));
  ("menu_items", (CSS_SELECTOR, ".nav-link"));
  ("company_submenu", (CSS_SELECTOR, "#navbarDropdownMenuLink + .dropdown-menu"));
  ("locations_block", (XPATH, "//h3[contains(text(), 'Our Locations')]"));
  ("teams_block", (XPATH, "//h3[contains(text(), 'Find your calling')]"));
  ("life_at_insider_block", (XPATH, "//h2[contains(text(), 'Life at Insider')]"))
].

(** [HomePage.__init__(driver)]: the base class default timeout. *)
Definition HomePage_init : BasePage := BasePage_init 20.

(** [HomePage.is_loaded] *)
Definition HomePage_is_loaded (self : BasePage) : M bool :=
  try_except
    (loc <- getitem HomePage_LOCATORS "logo" ;;
     visible <- is_element_visible self loc None ;;
     ret (py_all [visible]))
    (except_class TimeoutException (fun e =>
       log ERROR ("Homepage failed to load: " ++ str e) ;;
       ret false)).

(** [HomePage.navigate] *)
Definition HomePage_navigate (self : BasePage) : M bool :=
  try_except
    (call (get_call HomePage_URL) (get HomePage_URL) ;;
     HomePage_is_loaded self)
    (except_Exception (fun e =>
       log ERROR ("Navigation to homepage failed: " ++ str e) ;;
       ret false)).

(** [HomePage.click_navigation_item] *)
Definition HomePage_click_navigation_item (self : BasePage) (locator_key : string) : M bool :=
  try_except
    (loc <- getitem HomePage_LOCATORS locator_key ;;
     element_ <- find_clickable self loc None ;;
     safe_click_default element_ ;;
     ret true)
    (except_Exception (fun e =>
       log ERROR ("Failed to click " ++ locator_key ++ ": " ++ str e) ;;
       ret false)).

(** [HomePage.click_company_menu] *)
Definition HomePage_click_company_menu (self : BasePage) : M bool :=
  HomePage_click_navigation_item self "company_dropdown".

(** [HomePage.click_careers_menu] *)
Definition HomePage_click_careers_menu (self : BasePage) : M bool :=
  HomePage_click_navigation_item self "careers_link".

(** ** [CareersPage] *)

Definition CareersPage_URL : string := "https://useinsider.com/careers/quality-assurance/".

Definition CareersPage_LOCATORS : dict locator := [
  ("cookie_accept", (XPATH, "//*[@id='wt-cli-accept-all-btn']"));
  ("see_all_qa_jobs", (XPATH, "//a[contains(text(), 'See all QA jobs')]"));
  ("location_filter",
   (XPATH, "//span[contains(@id, 'select2-filter-by-location-container')]"));
  ("istanbul_option", (XPATH, "//li[contains(text(), 'Istanbul, Turkey')]"));
  ("department_filter",
   (XPATH, "//span[contains(@id, 'select2-filter-by-department-container')]"));
  ("qa_option", (XPATH, "//li[contains(text(), 'Quality Assurance')]"));
  ("jobs_list", (XPATH, "/html/body/section[3]/div/div/div[2]/div/div/span"));
  ("view_role", (CSS_SELECTOR, ".position-list-item-wrapper .btn.btn-navy"))
].

(** [CareersPage(driver)]: the base class constructor and its default. *)
Definition CareersPage_init : BasePage := BasePage_init 20.

(** [CareersPage.navigate] *)
Definition CareersPage_navigate (self : BasePage) : M bool :=
  try_except
    (call (get_call CareersPage_URL) (get CareersPage_URL) ;;
     ret true)
    (except_Exception (fun e =>
       log ERROR ("Failed to navigate to careers page: " ++ str e) ;;
       ret false)).

(** [CareersPage.accept_cookies] *)
Definition CareersPage_accept_cookies (self : BasePage) : M bool :=
  try_except
    (loc <- getitem CareersPage_LOCATORS "cookie_accept" ;;
     button <- find_clickable self loc None ;;
     safe_click_default button)
    (except_Exception (fun e =>
       log ERROR ("Failed to accept cookies: " ++ str e) ;;
       ret false)).

(** [CareersPage.click_see_all_qa_jobs] *)
Definition CareersPage_click_see_all_qa_jobs (self : BasePage) : M bool :=
  try_except
    (loc <- getitem CareersPage_LOCATORS "see_all_qa_jobs" ;;
     button <- find_clickable self loc None ;;
     safe_click_default button)
    (except_Exception (fun e =>
       log ERROR ("Failed to click 'See all QA jobs': " ++ str e) ;;
       ret false)).

(** [CareersPage.select_location]; the [location] argument is not used by
    the body. *)
Definition CareersPage_select_location (self : BasePage) (location : string) : M bool :=
  try_except
    (sleep 10%Q ;;
     loc <- getitem CareersPage_LOCATORS "location_filter" ;;
     filter_ <- find_clickable self loc None ;;
     safe_click_default filter_ ;;
     loc' <- getitem CareersPage_LOCATORS "istanbul_option" ;;
     option_ <- find_clickable self loc' None ;;
     safe_click_default option_ ;;
     ret true)
    (except_Exception (fun e =>
       log ERROR ("Failed to select location: " ++ str e) ;;
       ret false)).

(** [CareersPage.select_department] *)
Definition CareersPage_select_department (self : BasePage) : M bool :=
  try_except
    (loc <- getitem CareersPage_LOCATORS "department_filter" ;;
     filter_ <- find_clickable self loc None ;;
     safe_click_default filter_ ;;
     loc' <- getitem CareersPage_LOCATORS "qa_option" ;;
     option_ <- find_clickable self loc' None ;;
     safe_click_default option_ ;;
     ret true)
    (except_Exception (fun e =>
       log ERROR ("Failed to select department: " ++ str e) ;;
       ret false)).

(** [xs[0]], raising [IndexError] on an empty list. *)
Definition first_item {A} (xs : list A) : M A :=
  match xs with
  | x :: _ => ret x
  | [] => raise {| class_of := IndexError; str := "list index out of range" |}
  end.

(** [CareersPage.view_first_role] *)
Definition CareersPage_view_first_role (self : BasePage) : M bool :=
  try_except
    (sleep 10%Q ;;
     loc <- getitem CareersPage_LOCATORS "view_role" ;;
     buttons <- call (find_elements_call loc) (find_elements loc) ;;
     match buttons with
     | [] => log ERROR "No 'View Role' buttons found" ;; ret false
     | _ :: _ =>
       sleep 10%Q ;;
       original_window <- call current_window_handle_call current_window_handle ;;
       handles <- call window_handles_call window_handles ;;
       if negb (List.length handles =? 1)%nat then
         log WARNING "Multiple tabs open before clicking View Role" ;; ret false
       else
         button <- first_item buttons ;;
         safe_click_default button ;;
         appeared <- until_bool (timeout self) more_than_one_window ;;
         if negb appeared then ret false
         else
           handles' <- call window_handles_call window_handles ;;
           new_window <- first_item (filter (fun w => negb (String.eqb w original_window))
                                            handles') ;;
           call (switch_to_window_call new_window) (switch_to_window new_window) ;;
           on_lever <- wait_for_url_contains self "jobs.lever.co" None ;;
           if negb on_lever then ret false
           else
             log INFO "Successfully navigated to Lever Application form" ;;
             call close_call close ;;
             call (switch_to_window_call original_window)
                  (switch_to_window original_window) ;;
             ret true
     end)
    (except_Exception (fun e =>
       log ERROR ("Failed to view role: " ++ str e) ;;
       ret false)).

(** ** [TestStep] and [InsiderWebsiteTest] *)

(** [@dataclass class TestStep] *)
Record TestStep := { name : string; function : M bool; description : string }.

(** The test object: the browser session with its history, and
    [self.test_results]. *)
Record test := { tworld : world; test_results : dict TestResult }.

Definition T := ST exn test.

(** A page-level computation run from a method of the test object. *)
Definition lift {A} (m : M A) : T A :=
  fun t =>
    let (r, w) := m (tworld t) in
    (r, {| tworld := w; test_results := test_results t |}).

(** [self.test_results[key] = v] *)
Definition setitem (key : string) (v : TestResult) : T unit :=
  fun t =>
    (Ret tt, {| tworld := record (SetItem key v) (tworld t);
                test_results := dict_set (test_results t) key v |}).

(** [InsiderWebsiteTest.__init__] *)
Definition InsiderWebsiteTest_init (headless : bool) : T unit :=
  lift (create_chrome_driver headless) ;;
  (fun t => (Ret tt, {| tworld := tworld t; test_results := [] |})).

(** [InsiderWebsiteTest.run_test_step] *)
Definition run_test_step (step : TestStep) : M bool :=
  log INFO ("Executing step: " ++ description step) ;;
  try_except
    (result <- function step ;;
     when (negb result) (log ERROR ("Step failed: " ++ description step)) ;;
     ret result)
    (except_Exception (fun e =>
       log ERROR ("Step failed with exception: " ++ description step ++ nl ++ str e) ;;
       ret false)).

(** The loop [for step in steps: ...] of both test methods, followed by the
    two statements after it; [case] is the key the method writes. *)
Fixpoint for_steps (case : string) (steps : list TestStep) : T bool :=
  match steps with
  | [] => setitem case PASSED ;; ret true
  | step :: rest =>
      ok <- lift (run_test_step step) ;;
      if negb ok then setitem case FAILED ;; ret false
      else for_steps case rest
  end.

Definition homepage_steps : list TestStep := [
  {| name := "navigate"; function := HomePage_navigate HomePage_init;
     description := "Navigating to homepage" |};
  {| name := "verify"; function := HomePage_is_loaded HomePage_init;
     description := "Verifying homepage loaded" |};
  {| name := "company_menu"; function := HomePage_click_company_menu HomePage_init;
     description := "Clicking 'Company' menu" |};
  {| name := "careers_menu"; function := HomePage_click_careers_menu HomePage_init;
     description := "Clicking 'Careers' menu" |}
].

(** [InsiderWebsiteTest.test_homepage_loading] *)
Definition test_homepage_loading : T bool :=
  let steps := homepage_steps in
  for_steps "Homepage Test" steps.

Definition qa_jobs_steps : list TestStep := [
  {| name := "navigate"; function := CareersPage_navigate CareersPage_init;
     description := "Navigating to careers page" |};
  {| name := "cookies"; function := CareersPage_accept_cookies CareersPage_init;
     description := "Accepting cookies" |};
  {| name := "qa_jobs"; function := CareersPage_click_see_all_qa_jobs CareersPage_init;
     description := "Clicking 'See all QA jobs'" |};
  {| name := "location";
     function := CareersPage_select_location CareersPage_init "Istanbul, Turkey";
     description := "Selecting location" |};
  {| name := "department"; function := CareersPage_select_department CareersPage_init;
     description := "Selecting department" |};
  {| name := "view_role"; function := CareersPage_view_first_role CareersPage_init;
     description := "Viewing first role" |}
].

(** [InsiderWebsiteTest.test_qa_jobs_filtering] *)
Definition test_qa_jobs_filtering : T bool :=
  let steps := qa_jobs_steps in
  for_steps "QA Jobs Test" steps.

(** [InsiderWebsiteTest.teardown]; the object always has its [driver]
    attribute once [__init__] has returned. *)
Definition teardown : T unit :=
  lift (call quit_call quit).

(** The report loop of [run_tests] over [test.test_results.items()]. *)
Fixpoint report (items : list (string * TestResult)) : M unit :=
  match items with
  | [] => ret tt
  | (test_name, result) :: rest =>
      let symbol := if TestResult_eqb result PASSED then "✅" else "❌" in
      log INFO (test_name ++ ": " ++ name_of result ++ " " ++ symbol) ;;
      report rest
  end.

(** [run_tests] *)
Definition run_tests (headless : bool) : T unit :=
  InsiderWebsiteTest_init headless ;;
  try_finally
    (lift (log INFO "Starting test execution...") ;;
     test_homepage_loading ;;
     test_qa_jobs_filtering ;;
     lift (log INFO (nl ++ "Test Results:")) ;;
     (fun t => lift (report (test_results t)) t))
    (teardown ;;
     lift (log INFO "Test execution completed!")).

(** ** Vocabulary of the statements *)

(** [obstructed_attempts el n d d']: starting from the remote state [d], [n]
    clicks on [el] in a row are intercepted, each followed by a scroll that
    returns; [d'] is the remote state after the last scroll. *)
Inductive obstructed_attempts (el : element) : nat -> D -> D -> Prop :=
| obstructed_O d : obstructed_attempts el O d d
| obstructed_S n d e d1 d2 d3 :
    click el d = (Raise e, d1) ->
    is_class ElementClickInterceptedException e = true ->
    execute_script scroll_script el d1 = (Ret tt, d2) ->
    obstructed_attempts el n d2 d3 ->
    obstructed_attempts el (S n) d d3.

(** [retried_attempts el n d d']: starting from [d], [n] attempts on [el] in
    a row fail in a way that lets the loop go on when they are not the last:
    the click is intercepted and the scroll returns, or the click fails for
    another reason; [d'] is the remote state after the last of them. *)
Inductive retried_attempts (el : element) : nat -> D -> D -> Prop :=
| retried_O d : retried_attempts el O d d
| retried_intercepted n d e d1 d2 d3 :
    click el d = (Raise e, d1) ->
    is_class ElementClickInterceptedException e = true ->
    execute_script scroll_script el d1 = (Ret tt, d2) ->
    retried_attempts el n d2 d3 ->
    retried_attempts el (S n) d d3
| retried_other n d e d1 d3 :
    click el d = (Raise e, d1) ->
    is_class ElementClickInterceptedException e = false ->
    retried_attempts el n d1 d3 ->
    retried_attempts el (S n) d d3.

(** What a page object may do: anything but open the session, release it,
    or write a verdict. *)
Definition page_event (e : event) : Prop :=
  match e with
  | Call (Remote_call _ _) | Call quit_call | SetItem _ _ => False
  | _ => True
  end.

(** [emits m]: whatever the state, [m] only appends page events to the
    history. *)
Definition emits {A} (m : M A) : Prop :=
  forall w, exists l, events (snd (m w)) = (events w ++ l)%list /\ Forall page_event l.

(** The verdict a test method writes for the value it returns. *)
Definition verdict_of (ok : bool) : TestResult := if ok then PASSED else FAILED.

(** The world after the steps [steps] when [run_test_step] returns [True]
    for each of them. *)
Fixpoint all_pass (steps : list TestStep) (w : world) : option world :=
  match steps with
  | [] => Some w
  | step :: rest =>
      match run_test_step step w with
      | (Ret true, w') => all_pass rest w'
      | _ => None
      end
  end.

(** A step reports failure when its operation, started in [w], returns
    [False] or raises. *)
Definition reports_failure (step : TestStep) (w : world) : Prop :=
  match fst (function step w) with
  | Ret true => False
  | Ret false => True
  | Raise _ => True
  end.

(** The verdict writes of a history, oldest first. *)
Fixpoint writes_of (evs : list event) : list (string * TestResult) :=
  match evs with
  | [] => []
  | SetItem k v :: evs' => (k, v) :: writes_of evs'
  | _ :: evs' => writes_of evs'
  end.

(** How often [driver.quit] was called in a history. *)
Fixpoint quit_calls (evs : list event) : nat :=
  match evs with
  | [] => O
  | Call quit_call :: evs' => S (quit_calls evs')
  | _ :: evs' => quit_calls evs'
  end.

(** The world in which [run_tests] logs its first line, once the session
    has been created in [d]. *)
Definition started (headless : bool) (t : test) (d : D) : world :=
  record (Log INFO "Starting test execution...")
    {| browser := d;
       events := events (tworld t)
                 ++ [Call (Remote_call "http://chrome:4444/wd/hub"
                                       (chrome_arguments headless))] |}.

(** ** Page methods no test step uses *)

(** [HomePage.verify_career_blocks_displayed]: the three list elements are
    evaluated, left to right, before [all] sees any of them. *)
Definition HomePage_verify_career_blocks_displayed (self : BasePage) : M bool :=
  try_except
    (loc1 <- getitem HomePage_LOCATORS "locations_block" ;;
     visible1 <- is_element_visible self loc1 None ;;
     loc2 <- getitem HomePage_LOCATORS "teams_block" ;;
     visible2 <- is_element_visible self loc2 None ;;
     loc3 <- getitem HomePage_LOCATORS "life_at_insider_block" ;;
     visible3 <- is_element_visible self loc3 None ;;
     let blocks_visible := py_all [visible1; visible2; visible3] in
     ret blocks_visible)
    (except_Exception (fun e =>
       log ERROR ("Failed to verify career blocks: " ++ str e) ;;
       ret false)).

(** ** More vocabulary *)

(** How many events of a history satisfy [p]. *)
Definition count (p : event -> bool) (evs : list event) : nat :=
  List.length (filter p evs).

Definition is_click (e : event) : bool :=
  match e with Call (click_call _) => true | _ => false end.

Definition is_sleep (e : event) : bool :=
  match e with Sleep _ => true | _ => false end.

Definition is_scroll (e : event) : bool :=
  match e with Call (execute_script_call _ _) => true | _ => false end.

Definition is_step_start (e : event) : bool :=
  match e with
  | Log INFO msg => String.prefix "Executing step: " msg
  | _ => false
  end.

(** What a visibility wait tells [is_element_visible]: the element showed
    up, the wait timed out, or something else went wrong. *)
Definition seen (r : outcome exn element) : option bool :=
  match r with
  | Ret _ => Some true
  | Raise e => if is_class TimeoutException e then Some false else None
  end.

(** The line [run_tests] reports for one entry of the mapping. *)
Definition report_line (entry : string * TestResult) : string :=
  fst entry ++ ": " ++ name_of (snd entry) ++ " "
  ++ (if TestResult_eqb (snd entry) PASSED then "✅" else "❌").

End Pages.

End Insider.

(** * Concrete services

    A scripted cluster and a scripted browser: test doubles that instantiate
    the two interfaces, so that every statement below can be run on them. *)

Module FakeCluster.
Import K8s.

(** The cluster accepts [quota] more resources and refuses the next one;
    [created] lists what it accepted.  It is not reachable in-cluster. *)
Record cluster := { quota : nat; created : list api_call }.

Definition create (c : api_call) (k : cluster) : outcome exn unit * cluster :=
  match quota k with
  | O => (Raise (ApiException "(403) Reason: Forbidden"), k)
  | S q => (Ret tt, {| quota := q; created := created k ++ [c] |})
  end.

#[global] Instance client : ApiClient cluster := {
  load_incluster_config k :=
    (Raise (ConfigException "Service host/port is not set."), k);
  load_kube_config k := (Ret tt, k);
  create_namespaced_deployment ns b := create (create_namespaced_deployment_call ns b);
  create_namespaced_service ns b := create (create_namespaced_service_call ns b);
  create_namespaced_horizontal_pod_autoscaler ns b :=
    create (create_namespaced_horizontal_pod_autoscaler_call ns b)
}.

Definition start (quota : nat) : world (K := cluster) :=
  {| K8s.cluster := {| quota := quota; created := [] |}; events := [] |}.

(** Decimal integer literals of one or two digits, enough for [NODE_COUNT]
    in the examples. *)
Definition digit (a : ascii) : option Z :=
  let n := Z.of_nat (nat_of_ascii a) in
  if (48 <=? n) && (n <=? 57) then Some (n - 48) else None.

Definition py_int (s : string) : option Z :=
  match s with
  | String a EmptyString => digit a
  | String a (String b EmptyString) =>
      match digit a, digit b with
      | Some x, Some y => Some (10 * x + y)
      | _, _ => None
      end
  | _ => None
  end.
End FakeCluster.

Module FakeBrowser.
Import Insider.

(** [contains fragment s]: [fragment in s]. *)
Definition contains (fragment s : string) : bool :=
  match String.index 0 fragment s with
  | Some _ => true
  | None => false
  end.

(** A browser with a list of open contexts and one active context.
    - the next [intercepted] clicks are intercepted by an overlay;
    - a click that goes through opens a new context at [opens], if any;
    - located elements show up in time when [visible] is set;
    - after [healthy_waits] more waits the remote end stops answering them
      when [flaky] is set. *)
Record browser := {
  windows : list (handle * string);
  current : handle;
  intercepted : nat;
  opens : option string;
  visible : bool;
  flaky : bool;
  healthy_waits : nat
}.

Definition with_windows (ws : list (handle * string)) (c : handle) (b : browser)
  : browser :=
  {| windows := ws; current := c; intercepted := intercepted b; opens := opens b;
     visible := visible b; flaky := flaky b; healthy_waits := healthy_waits b |}.

Definition address (b : browser) : string :=
  match dict_get (windows b) (current b) with
  | Some a => a
  | None => ""
  end.

Definition fake_get (url : string) (b : browser) : outcome exn unit * browser :=
  (Ret tt, with_windows (dict_set (windows b) (current b) url) (current b) b).

Definition fake_click (el : element) (b : browser) : outcome exn unit * browser :=
  match intercepted b with
  | S n =>
      (Raise {| class_of := ElementClickInterceptedException;
                str := "element click intercepted" |},
       {| windows := windows b; current := current b; intercepted := n;
          opens := opens b; visible := visible b; flaky := flaky b;
          healthy_waits := healthy_waits b |})
  | O =>
      match opens b with
      | Some url =>
          let h := "w" ++ str_of_int (Z.of_nat (List.length (windows b))) in
          (Ret tt, with_windows (windows b ++ [(h, url)]) (current b) b)
      | None => (Ret tt, b)
      end
  end.

Definition fake_switch (h : handle) (b : browser) : outcome exn unit * browser :=
  match dict_get (windows b) h with
  | Some _ => (Ret tt, with_windows (windows b) h b)
  | None => (Raise {| class_of := WebDriverException; str := "no such window" |}, b)
  end.

Definition fake_close (b : browser) : outcome exn unit * browser :=
  (Ret tt,
   with_windows (filter (fun w => negb (String.eqb (fst w) (current b))) (windows b))
                (current b) b).

(** One wait: [answer] when the remote end still answers. *)
Definition fake_wait {A} (answer : browser -> outcome exn A) (b : browser)
  : outcome exn A * browser :=
  match healthy_waits b with
  | S n =>
      (answer b,
       {| windows := windows b; current := current b; intercepted := intercepted b;
          opens := opens b; visible := visible b; flaky := flaky b;
          healthy_waits := n |})
  | O =>
      if flaky b
      then (Raise {| class_of := WebDriverException; str := "chrome not reachable" |}, b)
      else (answer b, b)
  end.

Definition timed_out {A} : outcome exn A :=
  Raise {| class_of := TimeoutException; str := "Message: " |}.

#[global] Instance driver : WebDriver browser := {
  Remote _ _ b := (Ret tt, b);
  get := fake_get;
  find_elements _ b := (Ret (if visible b then [0%nat] else []), b);
  current_window_handle b := (Ret (current b), b);
  window_handles b := (Ret (keys (windows b)), b);
  switch_to_window := fake_switch;
  close := fake_close;
  quit b := (Ret tt, with_windows [] (current b) b);
  execute_script _ _ b := (Ret tt, b);
  click := fake_click;
  until_located _ _ :=
    fake_wait (fun b => if visible b then Ret 0%nat else timed_out);
  until_true _ c :=
    fake_wait (fun b =>
      match c with
      | url_contains fragment =>
          if contains fragment (address b) then Ret true else timed_out
      | more_than_one_window =>
          if (1 <? List.length (windows b))%nat then Ret true else timed_out
      | _ => timed_out
      end)
}.

(** A fresh session: one context, showing a blank page. *)
Definition fresh : browser :=
  {| windows := [("w0", "about:blank")]; current := "w0"; intercepted := 0;
     opens := None; visible := true; flaky := false; healthy_waits := 0 |}.

Definition world_of (b : browser) : world (D := browser) :=
  {| Insider.browser := b; events := [] |}.

Definition test_of (b : browser) : test (D := browser) :=
  {| tworld := world_of b; test_results := [] |}.

(** An overlay intercepts the next [n] clicks. *)
Definition obstructed (n : nat) : browser :=
  {| windows := windows fresh; current := current fresh; intercepted := n;
     opens := None; visible := true; flaky := false; healthy_waits := 0 |}.

(** The first "View Role" button opens a context that is not the Lever
    form. *)
Definition wrong_target : browser :=
  {| windows := [("w0", "https://useinsider.com/careers/open-positions/")];
     current := "w0"; intercepted := 0;
     opens := Some "https://useinsider.com/404"; visible := true; flaky := false;
     healthy_waits := 0 |}.

(** The first "View Role" button opens the Lever form. *)
Definition lever_target : browser :=
  {| windows := [("w0", "https://useinsider.com/careers/open-positions/")];
     current := "w0"; intercepted := 0;
     opens := Some "https://jobs.lever.co/useinsider/1234"; visible := true;
     flaky := false; healthy_waits := 0 |}.

(** The landmark element never becomes visible. *)
Definition blank_page : browser :=
  {| windows := windows fresh; current := current fresh; intercepted := 0;
     opens := None; visible := false; flaky := false; healthy_waits := 0 |}.

(** The remote end answers one wait and is then unreachable. *)
Definition dies_after_one_wait : browser :=
  {| windows := windows fresh; current := current fresh; intercepted := 0;
     opens := None; visible := true; flaky := true; healthy_waits := 1 |}.
End FakeBrowser.

(** A cluster that is configured in-cluster and whose API refuses services
    as malformed, with an error that is not an [ApiException]. *)
Module StrictCluster.
Import K8s.

Record cluster := { accepted : list api_call }.

Definition accept (c : api_call) (k : cluster) : outcome exn unit * cluster :=
  (Ret tt, {| accepted := accepted k ++ [c] |}).

#[global] Instance client : ApiClient cluster := {
  load_incluster_config k := (Ret tt, k);
  load_kube_config k := (Raise (ConfigException "Invalid kube-config file."), k);
  create_namespaced_deployment ns b := accept (create_namespaced_deployment_call ns b);
  create_namespaced_service ns b k :=
    (Raise (ValueError "Invalid value for `spec`, must not be `None`"), k);
  create_namespaced_horizontal_pod_autoscaler ns b :=
    accept (create_namespaced_horizontal_pod_autoscaler_call ns b)
}.

Definition start : world (K := cluster) :=
  {| K8s.cluster := {| accepted := [] |}; events := [] |}.
End StrictCluster.

(** A browser driven by a script: what the next clicks, scrolls and waits
    answer, and what session creation and [quit] answer.  A script that has
    run out answers with success. *)
Module ScriptedBrowser.
Import Insider.

Record script := {
  on_click : list (outcome exn unit);
  on_scroll : list (outcome exn unit);
  on_wait : list (outcome exn element);
  on_remote : outcome exn unit;
  on_quit : outcome exn unit;
  found : list element;
  handles : list handle
}.

Definition next_click (s : script) : outcome exn unit * script :=
  match on_click s with
  | [] => (Ret tt, s)
  | r :: rest =>
      (r, {| on_click := rest; on_scroll := on_scroll s; on_wait := on_wait s;
             on_remote := on_remote s; on_quit := on_quit s; found := found s;
             handles := handles s |})
  end.

Definition next_scroll (s : script) : outcome exn unit * script :=
  match on_scroll s with
  | [] => (Ret tt, s)
  | r :: rest =>
      (r, {| on_click := on_click s; on_scroll := rest; on_wait := on_wait s;
             on_remote := on_remote s; on_quit := on_quit s; found := found s;
             handles := handles s |})
  end.

Definition next_wait (s : script) : outcome exn element * script :=
  match on_wait s with
  | [] => (Ret 0%nat, s)
  | r :: rest =>
      (r, {| on_click := on_click s; on_scroll := on_scroll s; on_wait := rest;
             on_remote := on_remote s; on_quit := on_quit s; found := found s;
             handles := handles s |})
  end.

#[global] Instance driver : WebDriver script := {
  Remote _ _ s := (on_remote s, s);
  get _ s := (Ret tt, s);
  find_elements _ s := (Ret (found s), s);
  current_window_handle s := (Ret (hd "" (handles s)), s);
  window_handles s := (Ret (handles s), s);
  switch_to_window _ s := (Ret tt, s);
  close s := (Ret tt, s);
  quit s := (on_quit s, s);
  execute_script _ _ := next_scroll;
  click _ := next_click;
  until_located _ _ := next_wait;
  until_true _ _ s := (Ret true, s)
}.

Definition intercepted_error : exn :=
  {| class_of := ElementClickInterceptedException; str := "element click intercepted" |}.

Definition stale_error : exn :=
  {| class_of := WebDriverException; str := "stale element reference" |}.

Definition timeout_error : exn :=
  {| class_of := TimeoutException; str := "Message: " |}.

Definition unreachable_error : exn :=
  {| class_of := WebDriverException; str := "chrome not reachable" |}.

(** A quiet session with one context and one element on the page. *)
Definition quiet : script :=
  {| on_click := []; on_scroll := []; on_wait := []; on_remote := Ret tt;
     on_quit := Ret tt; found := [0%nat]; handles := ["w0"] |}.

Definition with_clicks (rs : list (outcome exn unit)) (s : script) : script :=
  {| on_click := rs; on_scroll := on_scroll s; on_wait := on_wait s;
     on_remote := on_remote s; on_quit := on_quit s; found := found s;
     handles := handles s |}.

Definition with_scrolls (rs : list (outcome exn unit)) (s : script) : script :=
  {| on_click := on_click s; on_scroll := rs; on_wait := on_wait s;
     on_remote := on_remote s; on_quit := on_quit s; found := found s;
     handles := handles s |}.

Definition with_waits (rs : list (outcome exn element)) (s : script) : script :=
  {| on_click := on_click s; on_scroll := on_scroll s; on_wait := rs;
     on_remote := on_remote s; on_quit := on_quit s; found := found s;
     handles := handles s |}.

Definition with_page (els : list element) (hs : list handle) (s : script) : script :=
  {| on_click := on_click s; on_scroll := on_scroll s; on_wait := on_wait s;
     on_remote := on_remote s; on_quit := on_quit s; found := els;
     handles := hs |}.

Definition with_session (remote quit_ : outcome exn unit) (s : script) : script :=
  {| on_click := on_click s; on_scroll := on_scroll s; on_wait := on_wait s;
     on_remote := remote; on_quit := quit_; found := found s;
     handles := handles s |}.

Definition world_of (s : script) : world (D := script) :=
  {| Insider.browser := s; events := [] |}.

Definition test_of (s : script) : test (D := script) :=
  {| tworld := world_of s; test_results := [] |}.
End ScriptedBrowser.

(** * Properties of the provisioning controller *)

Module K8sProps.
Import K8s.

Lemma py_min_spec (a b : Z) : py_min a b = Z.min a b.
Proof.
  unfold py_min. destruct (Z.ltb_spec b a); lia.
Qed.

Lemma py_max_spec (a b : Z) : py_max a b = Z.max a b.
Proof.
  unfold py_max. destruct (Z.ltb_spec a b); lia.
Qed.

Section Controller.
Context {K : Type} {api : ApiClient K}.

Lemma calls_of_app (l1 l2 : list event) :
  calls_of (l1 ++ l2) = (calls_of l1 ++ calls_of l2)%list.
Proof.
  induction l1 as [|[c|l m] l1 IH]; simpl; [reflexivity | now rewrite IH | exact IH].
Qed.

(** Unfolding one recorded call to the client. *)
Lemma api_call_eq (c : api_call) (w : world) :
  call c w =
    (fst (perform c (cluster w)),
     {| cluster := snd (perform c (cluster w)); events := events w ++ [Call c] |}).
Proof.
  unfold call. destruct (perform c (cluster w)); reflexivity.
Qed.

(** ** C3 *)

(** The constructor either raises or returns the controller built on line
    10. *)
Lemma init_result (n : Z) (w : world) (c : KubernetesTestController) (w' : world) :
  init n w = (Ret c, w') -> c = {| node_count := py_max 1 (py_min n 5) |}.
Proof.
  unfold init, bind, ret.
  destruct (try_except _ _ w) as [[[]|e] w1]; intros H; [|discriminate H].
  now injection H as <- _.
Qed.

(** C3. For every integer [n], the replica count a controller built from
    [n] stores is [max(1, min(n, 5))]: 1 for 0 and 5 for 10.  The constructor
    does return such a controller as soon as it finds a cluster
    configuration. *)
Theorem C3_replica_count_is_clamped (n : Z) (w : world) :
  (forall c w', init n w = (Ret c, w') -> node_count c = Z.max 1 (Z.min n 5))
  /\ (forall c w', init 0 w = (Ret c, w') -> node_count c = 1)
  /\ (forall c w', init 10 w = (Ret c, w') -> node_count c = 5)
  /\ (config_loads (cluster w) = true ->
      exists w', init n w = (Ret {| node_count := Z.max 1 (Z.min n 5) |}, w')).
Proof.
  split; [|split; [|split]].
  - intros c w' H. rewrite (init_result _ _ H). simpl.
    now rewrite py_max_spec, py_min_spec.
  - intros c w' H. rewrite (init_result _ _ H). reflexivity.
  - intros c w' H. rewrite (init_result _ _ H). reflexivity.
  - intros Hcfg.
    unfold init, bind, try_except, config_loads in *.
    rewrite api_call_eq. simpl in *.
    rewrite py_max_spec, py_min_spec.
    destruct (load_incluster_config (cluster w)) as [[[]|e] k1]; simpl.
    + eexists; reflexivity.
    + rewrite api_call_eq. simpl.
      destruct (load_kube_config k1) as [[[]|e'] k2]; simpl.
      * eexists; reflexivity.
      * discriminate.
Qed.

(** ** C8 *)

#[local] Arguments perform : simpl never.
#[local] Arguments String.append : simpl never.
#[local] Arguments str_of_int : simpl never.

(** The calls of [pre] returned one after the other, as an equation per
    call. *)
Ltac split_succeed H :=
  simpl in H;
  repeat match type of H with
  | context [perform ?c ?k0] =>
      let E := fresh "E" in
      destruct (perform c k0) as [[[]|?] ?k] eqn:E; [|discriminate H]
  end;
  injection H as H; subst.

Ltac run_calls :=
  repeat first
    [ rewrite api_call_eq; simpl
    | match goal with
      | E : perform ?c ?k = _ |- context [perform ?c ?k] => rewrite E; simpl
      end ].

(** When a create-resource call raises [ApiException] after the calls before
    it have returned, [deploy_resources] ends in [SystemExit(1)]; the last
    thing it does is log the error, and the failed call is the last call
    made. *)
Lemma deploy_resources_fatal (self : KubernetesTestController) (w : world)
  (pre post : list api_call) (c : api_call) (k1 k2 : K) (reason : string) :
  create_calls self = (pre ++ c :: post)%list ->
  all_succeed pre (cluster w) = Some k1 ->
  perform c k1 = (Raise (ApiException reason), k2) ->
  exists evs what,
    deploy_resources self w =
      (Raise (SystemExit 1),
       {| cluster := k2;
          events := (events w ++ evs ++ [Log ERROR (what ++ reason)])%list |})
    /\ calls_of evs = (pre ++ [c])%list.
Proof.
  intros Hc Hpre Hfail. unfold create_calls in Hc.
  destruct pre as [|p0 [|p1 [|p2 [|p3 pre]]]]; simpl in Hc;
    injection Hc as; subst;
    [ | | | | destruct pre; discriminate ];
    split_succeed Hpre;
    unfold deploy_resources, deploy_chrome, deploy_selenium_test, bind, try_except,
      log, sys_exit, raise; simpl; run_calls;
    repeat rewrite <- app_assoc; simpl;
    match goal with
    | |- exists _ _, (_, {| cluster := _; events := (_ ++ ?l)%list |}) = _ /\ _ =>
        exists (removelast l)
    end;
    eexists; split; reflexivity.
Qed.


(** C8. When a create-resource call raises [ApiException] (the calls before
    it having returned), the provisioning logs the error as its last action
    and ends in [SystemExit(1)]: the failed call is the last call made to the
    API, it is made once, and the process started by [main] exits with
    status 1. *)
Theorem C8_api_failure_is_fatal (py_int : string -> option Z)
  (self : KubernetesTestController) (w : world)
  (pre post : list api_call) (c : api_call) (k1 k2 : K) (reason : string) :
  create_calls self = (pre ++ c :: post)%list ->
  all_succeed pre (cluster w) = Some k1 ->
  perform c k1 = (Raise (ApiException reason), k2) ->
  (exists evs what,
     deploy_resources self w =
       (Raise (SystemExit 1),
        {| cluster := k2;
           events := (events w ++ evs ++ [Log ERROR (what ++ reason)])%list |})
     /\ calls_of evs = (pre ++ [c])%list)
  /\ exit_status (fst (deploy_resources self w)) = 1
  /\ (forall NODE_COUNT n w0,
        py_int (match NODE_COUNT with Some s => s | None => "1" end) = Some n ->
        init n w0 = (Ret self, w) ->
        exit_status (fst (main py_int NODE_COUNT w0)) = 1).
Proof.
  intros Hc Hpre Hfail.
  destruct (deploy_resources_fatal _ _ _ _ Hc Hpre Hfail) as (evs & what & Hrun & Hcalls).
  split; [exists evs, what; split; assumption|].
  split; [rewrite Hrun; reflexivity|].
  intros NODE_COUNT n w0 Hint Hinit.
  unfold main. rewrite Hint. unfold bind at 1. unfold ret at 1.
  unfold bind. rewrite Hinit, Hrun. reflexivity.
Qed.
End Controller.

(** On the scripted cluster, which is configured through the local
    kubeconfig: a count of 7 is stored as 5. *)
Lemma C3_replica_count_is_clamped_witness :
  exists c w', init 7 (FakeCluster.start 4) = (Ret c, w') /\ node_count c = 5.
Proof.
  assert (Hcfg : config_loads (cluster (FakeCluster.start 4)) = true) by reflexivity.
  destruct (@C3_replica_count_is_clamped FakeCluster.cluster FakeCluster.client
              7 (FakeCluster.start 4)) as (Hstored & _ & _ & Hreturns).
  destruct (Hreturns Hcfg) as [w' Hinit].
  exists {| node_count := Z.max 1 (Z.min 7 5) |}, w'.
  split; [exact Hinit|]. exact (Hstored _ _ Hinit).
Defined.

(** On a cluster that refuses the third resource: the autoscaler call fails,
    the test-runner deployment is never attempted. *)
Lemma C8_api_failure_is_fatal_witness :
  exists evs what,
    deploy_resources {| node_count := 3 |} (FakeCluster.start 2) =
      (Raise (SystemExit 1),
       {| cluster := {| FakeCluster.quota := 0;
                        FakeCluster.created :=
                          firstn 2 (create_calls {| node_count := 3 |}) |};
          events := (evs ++ [Log ERROR (what ++ "(403) Reason: Forbidden")])%list |})
    /\ calls_of evs = firstn 3 (create_calls {| node_count := 3 |}).
Proof.
  pose (self := {| node_count := 3 |}).
  destruct (@C8_api_failure_is_fatal FakeCluster.cluster FakeCluster.client
              FakeCluster.py_int self (FakeCluster.start 2)
              (firstn 2 (create_calls self)) (skipn 3 (create_calls self))
              (create_namespaced_horizontal_pod_autoscaler_call "default" chrome_hpa)
              {| FakeCluster.quota := 0;
                 FakeCluster.created := firstn 2 (create_calls self) |}
              {| FakeCluster.quota := 0;
                 FakeCluster.created := firstn 2 (create_calls self) |}
              "(403) Reason: Forbidden"
              eq_refl eq_refl eq_refl) as [H _].
  exact H.
Defined.

End K8sProps.

(** * Properties of the acceptance-test harness *)

Module InsiderProps.
Import Insider.

Unset Implicit Arguments.

#[local] Arguments is_class : simpl never.
#[local] Arguments String.append : simpl never.
#[local] Arguments str_of_int : simpl never.

Section Pages.
Context {D : Type} {drv : WebDriver D}.

Local Abbreviation world := (@Insider.world D).
Local Abbreviation test := (@Insider.test D).
Local Abbreviation M := (@Insider.M D).
Local Abbreviation T := (@Insider.T D).
Local Abbreviation TestStep := (@Insider.TestStep D).
Local Abbreviation emits m := (@Insider.emits D _ m).

(** ** Unfolding the monad *)

Lemma bind_Ret {S A B} (m : ST exn S A) (k : A -> ST exn S B) s a s' :
  m s = (Ret a, s') -> bind m k s = k a s'.
Proof.
  intros H. unfold bind. now rewrite H.
Qed.

Lemma bind_Raise {S A B} (m : ST exn S A) (k : A -> ST exn S B) s e s' :
  m s = (Raise e, s') -> bind m k s = (Raise e, s').
Proof.
  intros H. unfold bind. now rewrite H.
Qed.

Lemma call_eq {A} (c : driver_call) (op : D -> outcome exn A * D) (w : world) :
  call c op w =
    (fst (op (browser w)),
     {| browser := snd (op (browser w)); events := events w ++ [Call c] |}).
Proof.
  unfold call. destruct (op (browser w)); reflexivity.
Qed.

Lemma call_Ret {A} (c : driver_call) (op : D -> outcome exn A * D) (w : world) a d :
  op (browser w) = (Ret a, d) ->
  call c op w = (Ret a, {| browser := d; events := events w ++ [Call c] |}).
Proof.
  intros H. rewrite call_eq, H. reflexivity.
Qed.

Lemma call_Raise {A} (c : driver_call) (op : D -> outcome exn A * D) (w : world) e d :
  op (browser w) = (Raise e, d) ->
  call c op w = (Raise e, {| browser := d; events := events w ++ [Call c] |}).
Proof.
  intros H. rewrite call_eq, H. reflexivity.
Qed.

(** ** C1: [safe_click] *)

(** A sleep of a length that [time.sleep] takes returns. *)
Lemma sleep_returns (delay : Q) (w : world) :
  sleep_accepts delay = true ->
  sleep delay w = (Ret tt, record (Sleep delay) w).
Proof.
  intros H. apply andb_true_iff in H. destruct H as [H0 H1].
  unfold sleep. rewrite H0, H1. reflexivity.
Qed.

(** A delay between nothing and a day is one that [time.sleep] takes. *)
Lemma day_long_delay_accepted (delay : Q) :
  (0 <= delay <= 86400)%Q -> sleep_accepts delay = true.
Proof.
  intros [H0 H1]. unfold sleep_accepts. apply andb_true_iff. split.
  - apply Qle_bool_iff. exact H0.
  - apply Qle_bool_iff. apply Qle_trans with (y := 86400%Q); [exact H1|].
    unfold Qle, sleep_max. simpl. lia.
Qed.

(** What comes before the click of an attempt. *)
Lemma before_click_returns (delay : Q) (a : Z) (w : world) :
  sleep_accepts delay = true ->
  exists evs,
    when (0 <? a) (sleep delay) w =
      (Ret tt, {| browser := browser w; events := events w ++ evs |}).
Proof.
  intros H. unfold when. destruct (0 <? a).
  - rewrite (sleep_returns delay w H). exists [Sleep delay]. reflexivity.
  - exists []. unfold ret. rewrite app_nil_r. destruct w; reflexivity.
Qed.

Lemma safe_click_attempt_obstructed el R delay a (w : world) e d1 d2 :
  sleep_accepts delay = true ->
  click el (browser w) = (Raise e, d1) ->
  is_class ElementClickInterceptedException e = true ->
  execute_script scroll_script el d1 = (Ret tt, d2) ->
  exists evs,
    safe_click_attempt el R delay a w =
      (Ret None, {| browser := d2; events := events w ++ evs |}).
Proof.
  intros Hd Hc He Hs.
  destruct (before_click_returns delay a w Hd) as [evs0 H0].
  unfold safe_click_attempt, try_except.
  rewrite (bind_Ret _ _ _ _ _ H0).
  erewrite bind_Raise by (apply call_Raise; exact Hc).
  rewrite He. unfold bind, log, ret, record. cbn [browser events].
  rewrite call_eq. cbn [browser events]. rewrite Hs. cbn [fst snd].
  repeat rewrite <- app_assoc. eexists; reflexivity.
Qed.

Lemma safe_click_attempt_clicked el R delay a (w : world) d1 :
  sleep_accepts delay = true ->
  click el (browser w) = (Ret tt, d1) ->
  exists evs,
    safe_click_attempt el R delay a w =
      (Ret (Some true), {| browser := d1; events := events w ++ evs |}).
Proof.
  intros Hd Hc.
  destruct (before_click_returns delay a w Hd) as [evs0 H0].
  unfold safe_click_attempt, try_except.
  rewrite (bind_Ret _ _ _ _ _ H0).
  erewrite bind_Ret by (apply call_Ret; exact Hc).
  unfold ret. cbn [events]. repeat rewrite <- app_assoc. eexists; reflexivity.
Qed.

(** A click failure that is not an interception: re-raised on the last
    attempt, swallowed on the others. *)
Lemma safe_click_attempt_other el R delay a (w : world) e d1 :
  sleep_accepts delay = true ->
  click el (browser w) = (Raise e, d1) ->
  is_class ElementClickInterceptedException e = false ->
  exists evs,
    safe_click_attempt el R delay a w =
      (if a =? R - 1 then Raise e else Ret None,
       {| browser := d1; events := events w ++ evs |}).
Proof.
  intros Hd Hc He.
  destruct (before_click_returns delay a w Hd) as [evs0 H0].
  unfold safe_click_attempt, try_except.
  rewrite (bind_Ret _ _ _ _ _ H0).
  erewrite bind_Raise by (apply call_Raise; exact Hc).
  rewrite He. unfold bind, log, ret, raise, record. cbn [browser events].
  repeat rewrite <- app_assoc.
  destruct (a =? R - 1); eexists; reflexivity.
Qed.

Lemma safe_click_attempt_last_raises el R delay (w : world) e d1 :
  sleep_accepts delay = true ->
  click el (browser w) = (Raise e, d1) ->
  is_class ElementClickInterceptedException e = false ->
  exists evs,
    safe_click_attempt el R delay (R - 1) w =
      (Raise e, {| browser := d1; events := events w ++ evs |}).
Proof.
  intros Hd Hc He.
  destruct (safe_click_attempt_other el R delay (R - 1) w e d1 Hd Hc He) as [evs H].
  rewrite Z.eqb_refl in H. exists evs. exact H.
Qed.

(** The loop runs through a block of obstructed attempts and goes on with
    the attempts that are left. *)
Lemma safe_click_loop_obstructed el R delay n :
  sleep_accepts delay = true ->
  forall i rest (w : world) d',
    obstructed_attempts el n (browser w) d' ->
    exists evs,
      safe_click_loop el R delay (map Z.of_nat (seq i n) ++ rest) w =
        safe_click_loop el R delay rest
          {| browser := d'; events := events w ++ evs |}.
Proof.
  intros Hd.
  induction n as [|n IH]; intros i rest w d' H; inversion H; subst.
  - exists []. rewrite app_nil_r. destruct w; reflexivity.
  - simpl.
    match goal with
    | Hc : click _ _ = _, He : is_class _ _ = true, Hs : execute_script _ _ _ = _ |- _ =>
        destruct (safe_click_attempt_obstructed el R delay (Z.of_nat i) w _ _ _
                    Hd Hc He Hs) as [evs1 Ha]
    end.
    rewrite (bind_Ret _ _ _ _ _ Ha).
    match goal with
    | Hr : obstructed_attempts _ n _ _ |- _ =>
        destruct (IH (S i) rest {| browser := d2; events := events w ++ evs1 |} d' Hr)
          as [evs2 Hl]
    end.
    rewrite Hl. simpl. rewrite <- app_assoc. eexists; reflexivity.
Qed.

(** The same for a block of attempts that fail one way or the other, none of
    them being the last attempt of the budget. *)
Lemma safe_click_loop_retried el R delay n :
  sleep_accepts delay = true ->
  forall i rest (w : world) d',
    Z.of_nat (i + n) <= R - 1 ->
    retried_attempts el n (browser w) d' ->
    exists evs,
      safe_click_loop el R delay (map Z.of_nat (seq i n) ++ rest) w =
        safe_click_loop el R delay rest
          {| browser := d'; events := events w ++ evs |}.
Proof.
  intros Hd.
  induction n as [|n IH]; intros i rest w d' Hi H; inversion H; subst.
  - exists []. rewrite app_nil_r. destruct w; reflexivity.
  - simpl.
    match goal with
    | Hc : click _ _ = _, He : is_class _ _ = true, Hs : execute_script _ _ _ = _ |- _ =>
        destruct (safe_click_attempt_obstructed el R delay (Z.of_nat i) w _ _ _
                    Hd Hc He Hs) as [evs1 Ha]
    end.
    rewrite (bind_Ret _ _ _ _ _ Ha).
    match goal with
    | Hr : retried_attempts _ n _ _ |- _ =>
        destruct (IH (S i) rest {| browser := d2; events := events w ++ evs1 |} d'
                    ltac:(lia) Hr) as [evs2 Hl]
    end.
    rewrite Hl. simpl. rewrite <- app_assoc. eexists; reflexivity.
  - simpl.
    match goal with
    | Hc : click _ _ = _, He : is_class _ _ = false |- _ =>
        destruct (safe_click_attempt_other el R delay (Z.of_nat i) w _ _ Hd Hc He)
          as [evs1 Ha]
    end.
    replace (Z.of_nat i =? R - 1) with false in Ha
      by (symmetry; apply Z.eqb_neq; lia).
    rewrite (bind_Ret _ _ _ _ _ Ha).
    match goal with
    | Hr : retried_attempts _ n _ _ |- _ =>
        destruct (IH (S i) rest {| browser := d1; events := events w ++ evs1 |} d'
                    ltac:(lia) Hr) as [evs2 Hl]
    end.
    rewrite Hl. simpl. rewrite <- app_assoc. eexists; reflexivity.
Qed.

Lemma range_last (K : Z) :
  1 <= K ->
  range K = (map Z.of_nat (seq 0 (Z.to_nat (K - 1))) ++ [K - 1])%list.
Proof.
  intros HK. unfold range.
  replace (Z.to_nat K) with (S (Z.to_nat (K - 1))) by lia.
  rewrite seq_S, map_app. simpl. do 2 f_equal. lia.
Qed.

Lemma range_all (K : Z) :
  range K = (map Z.of_nat (seq 0 (Z.to_nat K)) ++ [])%list.
Proof.
  unfold range. now rewrite app_nil_r.
Qed.

(** C1 (amended). For every attempt budget [K >= 1] and every retry delay
    from nothing to a day:
    - when the click is intercepted on the first [K - 1] attempts, each
      scroll into view returning, and goes through on attempt [K],
      [safe_click] returns [True];
    - when the click is intercepted on all [K] attempts, each scroll into
      view returning, [safe_click] returns [False]: nothing is raised;
    - when attempt [K] is reached -- each of the [K - 1] attempts before it
      having met an interception followed by a scroll that returned, or a
      click failure of another kind -- and the click of attempt [K] raises
      anything other than an interception, that exception propagates to the
      caller. *)
Theorem C1_safe_click_retries (K : Z) (el : element) (delay : Q) (w : world) :
  1 <= K ->
  (0 <= delay <= 86400)%Q ->
  (forall d1 d2,
      obstructed_attempts el (Z.to_nat (K - 1)) (browser w) d1 ->
      click el d1 = (Ret tt, d2) ->
      exists evs, safe_click el K delay w =
                    (Ret true, {| browser := d2; events := events w ++ evs |}))
  /\ (forall d1,
      obstructed_attempts el (Z.to_nat K) (browser w) d1 ->
      exists evs, safe_click el K delay w =
                    (Ret false, {| browser := d1; events := events w ++ evs |}))
  /\ (forall d1 d2 e,
      retried_attempts el (Z.to_nat (K - 1)) (browser w) d1 ->
      click el d1 = (Raise e, d2) ->
      is_class ElementClickInterceptedException e = false ->
      exists evs, safe_click el K delay w =
                    (Raise e, {| browser := d2; events := events w ++ evs |})).
Proof.
  intros HK Hdelay.
  assert (Hd : sleep_accepts delay = true) by (apply day_long_delay_accepted; exact Hdelay).
  split; [|split].
  - intros d1 d2 Hobs Hclick. unfold safe_click. rewrite (range_last K HK).
    destruct (safe_click_loop_obstructed el K delay _ Hd 0%nat [K - 1] w _ Hobs)
      as [evs1 ->].
    simpl.
    destruct (safe_click_attempt_clicked el K delay (K - 1)
                {| browser := d1; events := events w ++ evs1 |} _ Hd Hclick)
      as [evs2 Ha].
    rewrite (bind_Ret _ _ _ _ _ Ha). simpl. rewrite <- app_assoc.
    eexists; reflexivity.
  - intros d1 Hobs. unfold safe_click. rewrite range_all.
    destruct (safe_click_loop_obstructed el K delay _ Hd 0%nat [] w _ Hobs)
      as [evs1 ->].
    simpl. eexists; reflexivity.
  - intros d1 d2 e Hret Hclick He. unfold safe_click. rewrite (range_last K HK).
    assert (Hlast : Z.of_nat (0 + Z.to_nat (K - 1)) <= K - 1) by lia.
    destruct (safe_click_loop_retried el K delay (Z.to_nat (K - 1)) Hd 0%nat [K - 1]
                w d1 Hlast Hret) as [evs1 ->].
    simpl.
    destruct (safe_click_attempt_last_raises el K delay
                {| browser := d1; events := events w ++ evs1 |} _ _ Hd Hclick He)
      as [evs2 Ha].
    rewrite (bind_Raise _ _ _ _ _ Ha). simpl. rewrite <- app_assoc.
    eexists; reflexivity.
Qed.

(** ** Page objects only produce page events *)

Lemma emits_ret {A} (a : A) : emits (ret a : M A).
Proof.
  intros w. exists []. simpl. now rewrite app_nil_r.
Qed.

Lemma emits_raise {A} (e : exn) : emits (raise e : M A).
Proof.
  intros w. exists []. simpl. now rewrite app_nil_r.
Qed.

Lemma emits_log l msg : emits (log l msg).
Proof.
  intros w. exists [Log l msg]. simpl. split; [reflexivity|].
  repeat constructor.
Qed.

Lemma emits_sleep q : emits (sleep q).
Proof.
  intros w. unfold sleep. destruct (Qle_bool 0 q); [destruct (Qle_bool q sleep_max)|].
  - exists [Sleep q]. simpl. split; [reflexivity|]. repeat constructor.
  - exists []. simpl. rewrite app_nil_r. split; [reflexivity | constructor].
  - exists []. simpl. rewrite app_nil_r. split; [reflexivity | constructor].
Qed.

Lemma emits_call {A} c (op : D -> outcome exn A * D) :
  page_event (Call c) -> emits (call c op).
Proof.
  intros Hc w. exists [Call c]. rewrite call_eq. simpl. split; [reflexivity|].
  repeat constructor. exact Hc.
Qed.

Lemma emits_bind {A B} (m : M A) (k : A -> M B) :
  emits m -> (forall a, emits (k a)) -> emits (bind m k).
Proof.
  intros Hm Hk w. unfold bind.
  destruct (Hm w) as (l1 & E1 & F1).
  destruct (m w) as [[a|e] w1]; simpl in *.
  - destruct (Hk a w1) as (l2 & E2 & F2).
    exists (l1 ++ l2)%list. rewrite E2, E1, app_assoc. split; [reflexivity|].
    apply Forall_app; split; assumption.
  - exists l1. split; assumption.
Qed.

Lemma emits_try_except {A} (m : M A) (h : exn -> option (M A)) :
  emits m -> (forall e k, h e = Some k -> emits k) -> emits (try_except m h).
Proof.
  intros Hm Hh w. unfold try_except.
  destruct (Hm w) as (l1 & E1 & F1).
  destruct (m w) as [[a|e] w1]; simpl in *.
  - exists l1. split; assumption.
  - destruct (h e) as [k|] eqn:Ek.
    + destruct (Hh e k Ek w1) as (l2 & E2 & F2).
      exists (l1 ++ l2)%list. rewrite E2, E1, app_assoc. split; [reflexivity|].
      apply Forall_app; split; assumption.
    + exists l1. split; assumption.
Qed.

Lemma emits_when c (m : M unit) : emits m -> emits (when c m).
Proof.
  intros Hm. destruct c; simpl; [exact Hm | apply emits_ret].
Qed.

Lemma emits_except_Exception {A} (h : exn -> M A) e k :
  (forall e, emits (h e)) -> except_Exception h e = Some k -> emits k.
Proof.
  intros Hh Hk. injection Hk as <-. apply Hh.
Qed.

Lemma emits_except_class {A} c (h : exn -> M A) e k :
  (forall e, emits (h e)) -> except_class c h e = Some k -> emits k.
Proof.
  unfold except_class. intros Hh Hk.
  destruct (is_class c e); [injection Hk as <-; apply Hh | discriminate].
Qed.

Lemma emits_getitem LOCATORS key : emits (getitem LOCATORS key).
Proof.
  unfold getitem. destruct (dict_get LOCATORS key); [apply emits_ret | apply emits_raise].
Qed.

Lemma emits_first_item {A} (xs : list A) : emits (first_item xs).
Proof.
  destruct xs; [apply emits_raise | apply emits_ret].
Qed.

Create HintDb emits.
#[local] Hint Resolve emits_ret emits_raise emits_log emits_sleep emits_when
  emits_getitem emits_first_item : emits.

(** One layer of a page method: a sequence, a [try], a branch, a call. *)
Ltac emits_step :=
  match goal with
  | |- emits (bind _ _) => apply emits_bind; [|intros ?]
  | |- emits (try_except _ (except_Exception _)) =>
      apply emits_try_except;
      [|intros ? ? ?H; eapply emits_except_Exception; [|exact H]; intros ?; cbv beta]
  | |- emits (try_except _ (except_class _ _)) =>
      apply emits_try_except;
      [|intros ? ? ?H; eapply emits_except_class; [|exact H]; intros ?; cbv beta]
  | |- emits (call _ _) => apply emits_call; exact I
  | |- emits (if ?b then _ else _) => destruct b
  | |- emits (match ?x with _ => _ end) => destruct x
  | |- emits _ => solve [auto with emits]
  end.

Ltac emits_tac := repeat emits_step.

Lemma emits_safe_click_attempt el R delay a : emits (safe_click_attempt el R delay a).
Proof.
  unfold safe_click_attempt.
  apply emits_try_except; [emits_tac|].
  intros e k Hk. destruct (is_class ElementClickInterceptedException e);
    injection Hk as <-; emits_tac.
Qed.

Lemma emits_safe_click_loop el R delay attempts :
  emits (safe_click_loop el R delay attempts).
Proof.
  induction attempts as [|a rest IH]; simpl; [apply emits_ret|].
  apply emits_bind; [apply emits_safe_click_attempt|].
  intros [b|]; [apply emits_ret | exact IH].
Qed.

Lemma emits_safe_click_default el : emits (safe_click_default el).
Proof.
  apply emits_safe_click_loop.
Qed.

#[local] Hint Resolve emits_safe_click_default : emits.

Lemma emits_find_clickable self loc t : emits (find_clickable self loc t).
Proof.
  unfold find_clickable, until_element. emits_tac.
Qed.

Lemma emits_is_element_visible self loc t : emits (is_element_visible self loc t).
Proof.
  unfold is_element_visible, until_element. emits_tac.
Qed.

Lemma emits_wait_for_url_contains self u t : emits (wait_for_url_contains self u t).
Proof.
  unfold wait_for_url_contains, until_bool. emits_tac.
Qed.

#[local] Hint Resolve emits_find_clickable emits_is_element_visible
  emits_wait_for_url_contains : emits.

Lemma emits_HomePage_is_loaded self : emits (HomePage_is_loaded self).
Proof.
  unfold HomePage_is_loaded. emits_tac.
Qed.

#[local] Hint Resolve emits_HomePage_is_loaded : emits.

Lemma emits_HomePage_navigate self : emits (HomePage_navigate self).
Proof.
  unfold HomePage_navigate. emits_tac.
Qed.

Lemma emits_HomePage_click_navigation_item self key :
  emits (HomePage_click_navigation_item self key).
Proof.
  unfold HomePage_click_navigation_item. emits_tac.
Qed.

Lemma emits_CareersPage_navigate self : emits (CareersPage_navigate self).
Proof.
  unfold CareersPage_navigate. emits_tac.
Qed.

Lemma emits_CareersPage_accept_cookies self : emits (CareersPage_accept_cookies self).
Proof.
  unfold CareersPage_accept_cookies. emits_tac.
Qed.

Lemma emits_CareersPage_click_see_all_qa_jobs self :
  emits (CareersPage_click_see_all_qa_jobs self).
Proof.
  unfold CareersPage_click_see_all_qa_jobs. emits_tac.
Qed.

Lemma emits_CareersPage_select_location self location :
  emits (CareersPage_select_location self location).
Proof.
  unfold CareersPage_select_location. emits_tac.
Qed.

Lemma emits_CareersPage_select_department self :
  emits (CareersPage_select_department self).
Proof.
  unfold CareersPage_select_department. emits_tac.
Qed.

Lemma emits_CareersPage_view_first_role self :
  emits (CareersPage_view_first_role self).
Proof.
  unfold CareersPage_view_first_role, until_bool. emits_tac.
Qed.

Lemma homepage_steps_emit : Forall (fun step => emits (function step)) homepage_steps.
Proof.
  unfold homepage_steps, HomePage_click_company_menu, HomePage_click_careers_menu.
  repeat constructor; simpl;
    auto using emits_HomePage_navigate, emits_HomePage_is_loaded,
      emits_HomePage_click_navigation_item.
Qed.

Lemma qa_jobs_steps_emit : Forall (fun step => emits (function step)) qa_jobs_steps.
Proof.
  unfold qa_jobs_steps.
  repeat constructor; simpl;
    auto using emits_CareersPage_navigate, emits_CareersPage_accept_cookies,
      emits_CareersPage_click_see_all_qa_jobs, emits_CareersPage_select_location,
      emits_CareersPage_select_department, emits_CareersPage_view_first_role.
Qed.

(** ** Steps and cases *)

(** [run_test_step] by cases on what the operation of the step does. *)
Lemma run_test_step_eq (step : TestStep) (w : world) :
  run_test_step step w =
    match function step (record (Log INFO ("Executing step: " ++ description step)) w) with
    | (Ret true, w1) => (Ret true, w1)
    | (Ret false, w1) =>
        (Ret false, record (Log ERROR ("Step failed: " ++ description step)) w1)
    | (Raise e, w1) =>
        (Ret false,
         record (Log ERROR ("Step failed with exception: " ++ description step
                            ++ nl ++ str e)) w1)
    end.
Proof.
  unfold run_test_step, bind, try_except, except_Exception, log, when, ret.
  destruct (function step _) as [[[|]|e] w1]; reflexivity.
Qed.

(** [run_test_step] answers [False] exactly when the step reports failure,
    be it by a [False] or by an exception. *)
Lemma run_test_step_false_iff (step : TestStep) (w : world) :
  fst (run_test_step step w) = Ret false <->
  reports_failure step (record (Log INFO ("Executing step: " ++ description step)) w).
Proof.
  rewrite run_test_step_eq. unfold reports_failure.
  destruct (function step _) as [[[|]|e] w1]; simpl; split;
    intros H; try exact I; try reflexivity; try discriminate H; try contradiction.
Qed.

Lemma run_test_step_trace (step : TestStep) (w : world) :
  emits (function step) ->
  exists b l,
    fst (run_test_step step w) = Ret b
    /\ events (snd (run_test_step step w)) =
         (events w ++ Log INFO ("Executing step: " ++ description step) :: l)%list
    /\ Forall page_event l.
Proof.
  intros Hs. rewrite run_test_step_eq.
  destruct (Hs (record (Log INFO ("Executing step: " ++ description step)) w))
    as (l & El & Fl).
  destruct (function step _) as [[[|]|e] w1]; simpl in *.
  - exists true, l. rewrite El, <- app_assoc. auto.
  - exists false, (l ++ [Log ERROR ("Step failed: " ++ description step)])%list.
    rewrite El. repeat rewrite <- app_assoc. repeat split.
    apply Forall_app; split; [exact Fl | repeat constructor].
  - exists false,
      (l ++ [Log ERROR ("Step failed with exception: " ++ description step
                        ++ nl ++ str e)])%list.
    rewrite El. repeat rewrite <- app_assoc. repeat split.
    apply Forall_app; split; [exact Fl | repeat constructor].
Qed.

Lemma lift_eq {A} (m : M A) (t : test) :
  lift m t =
    (fst (m (tworld t)),
     {| tworld := snd (m (tworld t)); test_results := test_results t |}).
Proof.
  unfold lift. destruct (m (tworld t)); reflexivity.
Qed.

Lemma dict_get_set {V} (d : dict V) (k : string) (v : V) :
  dict_get (dict_set d k v) k = Some v.
Proof.
  induction d as [|[k' v'] d IH]; simpl.
  - now rewrite String.eqb_refl.
  - destruct (String.eqb k' k) eqn:E; simpl; rewrite E; [reflexivity | exact IH].
Qed.

(** The loop stops at the first step for which [run_test_step] answers
    [False]: the verdict is written and nothing else happens. *)
Lemma for_steps_first_failure (case : string) (pre post : list TestStep)
  (s : TestStep) :
  forall (t : test) (w1 : world),
    all_pass pre (tworld t) = Some w1 ->
    fst (run_test_step s w1) = Ret false ->
    for_steps case (pre ++ s :: post) t =
      (Ret false,
       {| tworld := record (SetItem case FAILED) (snd (run_test_step s w1));
          test_results := dict_set (test_results t) case FAILED |}).
Proof.
  induction pre as [|p pre IH]; intros t w1 Hpre Hs; simpl in *.
  - injection Hpre as <-.
    unfold bind. rewrite lift_eq, Hs. reflexivity.
  - unfold bind. rewrite lift_eq.
    destruct (run_test_step p (tworld t)) as [[[|]|e] w0]; try discriminate Hpre.
    simpl. apply (IH {| tworld := w0; test_results := test_results t |} w1 Hpre Hs).
Qed.

(** C4. In a case whose steps before [s] all pass, if [s] reports failure (its
    operation returns [False] or raises), the test method returns [False], the
    case is recorded as [FAILED], and the state it leaves is the state right
    after [s] plus that one record: whatever steps follow [s], none of them
    runs.  Both test methods are this loop over their own steps. *)
Theorem C4_first_failing_step_fails_the_case (case : string)
  (pre post : list TestStep) (s : TestStep) (t : test) (w1 : world) :
  all_pass pre (tworld t) = Some w1 ->
  reports_failure s (record (Log INFO ("Executing step: " ++ description s)) w1) ->
  let t' := {| tworld := record (SetItem case FAILED) (snd (run_test_step s w1));
               test_results := dict_set (test_results t) case FAILED |} in
  for_steps case (pre ++ s :: post) t = (Ret false, t')
  /\ dict_get (test_results t') case = Some FAILED
  /\ (forall post', for_steps case (pre ++ s :: post') t = (Ret false, t'))
  /\ (case = "Homepage Test" -> homepage_steps = (pre ++ s :: post)%list ->
      test_homepage_loading t = (Ret false, t'))
  /\ (case = "QA Jobs Test" -> qa_jobs_steps = (pre ++ s :: post)%list ->
      test_qa_jobs_filtering t = (Ret false, t')).
Proof.
  intros Hpre Hfail t'.
  apply run_test_step_false_iff in Hfail.
  assert (Hall : forall post', for_steps case (pre ++ s :: post') t = (Ret false, t')).
  { intros post'. apply for_steps_first_failure; assumption. }
  split; [apply Hall|].
  split; [apply dict_get_set|].
  split; [exact Hall|].
  split; intros -> Hsteps.
  - unfold test_homepage_loading. rewrite Hsteps. apply Hall.
  - unfold test_qa_jobs_filtering. rewrite Hsteps. apply Hall.
Qed.

(** ** The run *)

Lemma writes_of_app (l1 l2 : list event) :
  writes_of (l1 ++ l2) = (writes_of l1 ++ writes_of l2)%list.
Proof.
  induction l1 as [|[c|l m|q|k v] l1 IH]; simpl; try exact IH.
  - reflexivity.
  - now rewrite IH.
Qed.

Lemma quit_calls_app (l1 l2 : list event) :
  quit_calls (l1 ++ l2) = (quit_calls l1 + quit_calls l2)%nat.
Proof.
  induction l1 as [|[c|l m|q|k v] l1 IH]; simpl; try exact IH.
  - reflexivity.
  - destruct c; simpl; try exact IH. now rewrite IH.
Qed.

(** Page events contain no verdict write and no [quit]. *)
Lemma page_events_quiet (l : list event) :
  Forall page_event l -> writes_of l = [] /\ quit_calls l = O.
Proof.
  induction 1 as [|e l He _ [IHw IHq]]; simpl; [split; reflexivity|].
  destruct e as [c|lv m|q|k v]; simpl in *; try (split; assumption).
  - destruct c; simpl in *; try (split; assumption); contradiction.
  - contradiction.
Qed.

(** A test method returns; it appends the events of its steps, which start
    with the log line of the first step, and then its one verdict write. *)
Lemma for_steps_trace (case : string) (steps : list TestStep) :
  Forall (fun step => emits (function step)) steps ->
  forall t : test,
  exists b l t',
    for_steps case steps t = (Ret b, t')
    /\ events (tworld t') =
         (events (tworld t) ++ l ++ [SetItem case (verdict_of b)])%list
    /\ Forall page_event l
    /\ test_results t' = dict_set (test_results t) case (verdict_of b)
    /\ (forall s rest, steps = s :: rest ->
        exists l', l = Log INFO ("Executing step: " ++ description s) :: l').
Proof.
  induction 1 as [|s steps Hs _ IH]; intros t; simpl.
  - exists true, [], {| tworld := record (SetItem case PASSED) (tworld t);
                        test_results := dict_set (test_results t) case PASSED |}.
    repeat split; auto. intros s rest Hnil. discriminate Hnil.
  - unfold bind. rewrite lift_eq.
    destruct (run_test_step_trace s (tworld t) Hs) as (b & l & Eb & El & Fl).
    rewrite Eb. destruct b; simpl.
    + destruct (IH {| tworld := snd (run_test_step s (tworld t));
                      test_results := test_results t |})
        as (b' & l' & t' & Erun & Eev & Fl' & Eres & _).
      exists b', (Log INFO ("Executing step: " ++ description s) :: l ++ l')%list, t'.
      split; [exact Erun|]. split.
      { rewrite Eev. simpl. rewrite El. repeat rewrite <- app_assoc. reflexivity. }
      split.
      { constructor; [exact I|]. apply Forall_app; split; assumption. }
      split; [exact Eres|].
      intros s0 rest Hcons. injection Hcons as <- _. eexists; reflexivity.
    + exists false, (Log INFO ("Executing step: " ++ description s) :: l)%list.
      eexists. split; [reflexivity|]. simpl. split.
      { rewrite El. repeat rewrite <- app_assoc. reflexivity. }
      split; [constructor; [exact I | exact Fl]|].
      split; [reflexivity|].
      intros s0 rest Hcons. injection Hcons as <- _. eexists; reflexivity.
Qed.

Lemma init_returns (headless : bool) (t : test) (d : D) :
  Remote "http://chrome:4444/wd/hub" (chrome_arguments headless)
         (browser (tworld t)) = (Ret tt, d) ->
  InsiderWebsiteTest_init headless t =
    (Ret tt,
     {| tworld :=
          {| browser := d;
             events := events (tworld t)
                       ++ [Call (Remote_call "http://chrome:4444/wd/hub"
                                             (chrome_arguments headless))] |};
        test_results := [] |}).
Proof.
  intros H. unfold InsiderWebsiteTest_init, bind, create_chrome_driver.
  rewrite lift_eq, call_eq, H. reflexivity.
Qed.

Lemma init_raises (headless : bool) (t : test) (e : exn) (d : D) :
  Remote "http://chrome:4444/wd/hub" (chrome_arguments headless)
         (browser (tworld t)) = (Raise e, d) ->
  run_tests headless t =
    (Raise e,
     {| tworld :=
          {| browser := d;
             events := events (tworld t)
                       ++ [Call (Remote_call "http://chrome:4444/wd/hub"
                                             (chrome_arguments headless))] |};
        test_results := test_results t |}).
Proof.
  intros H. unfold run_tests, InsiderWebsiteTest_init, bind, create_chrome_driver.
  rewrite lift_eq, call_eq, H. reflexivity.
Qed.

Lemma report_returns (items : list (string * TestResult)) (w : world) :
  fst (report items w) = Ret tt.
Proof.
  revert w. induction items as [|[k v] items IH]; intros w; simpl; [reflexivity|].
  unfold bind, log. apply IH.
Qed.

(** The [finally] block: [quit] is called once, and the closing line is
    logged when [quit] returns. *)
Lemma finally_trace (t : test) :
  exists r l3 t',
    bind teardown (fun _ => lift (log INFO "Test execution completed!")) t = (r, t')
    /\ events (tworld t') = (events (tworld t) ++ Call quit_call :: l3)%list
    /\ (l3 = [] \/ l3 = [Log INFO "Test execution completed!"])
    /\ test_results t' = test_results t.
Proof.
  unfold bind, teardown. rewrite lift_eq, call_eq.
  destruct (quit (browser (tworld t))) as [[[]|e] d]; simpl.
  - eexists; exists [Log INFO "Test execution completed!"]; eexists.
    rewrite lift_eq. simpl.
    split; [reflexivity|]. simpl. rewrite <- app_assoc. auto.
  - eexists; exists []; eexists.
    split; [reflexivity|]. simpl. auto.
Qed.

(** The whole run, once the session has been created: the first case from
    the start state, then the second case, the report, and the release of the
    session. *)
Lemma run_tests_trace (headless : bool) (t : test) (d : D) :
  Remote "http://chrome:4444/wd/hub" (chrome_arguments headless)
         (browser (tworld t)) = (Ret tt, d) ->
  exists b1 l1 t1 b2 l2 m1 m2 l3 r t',
    test_homepage_loading
      {| tworld := started headless t d; test_results := [] |} = (Ret b1, t1)
    /\ events (tworld t1) =
         (events (started headless t d)
          ++ (Log INFO "Executing step: Navigating to homepage" :: l1)
          ++ [SetItem "Homepage Test" (verdict_of b1)])%list
    /\ Forall page_event l1
    /\ run_tests headless t = (r, t')
    /\ events (tworld t') =
         (events (tworld t1)
          ++ (Log INFO "Executing step: Navigating to careers page" :: l2)
          ++ [SetItem "QA Jobs Test" (verdict_of b2)]
          ++ [Log INFO (nl ++ "Test Results:"); Log INFO m1; Log INFO m2]
          ++ Call quit_call :: l3)%list
    /\ Forall page_event l2
    /\ (l3 = [] \/ l3 = [Log INFO "Test execution completed!"])
    /\ test_results t' =
         [("Homepage Test", verdict_of b1); ("QA Jobs Test", verdict_of b2)].
Proof.
  intros HR.
  pose (t0 := {| tworld := started headless t d; test_results := ([] : dict TestResult) |}).
  destruct (for_steps_trace "Homepage Test" homepage_steps homepage_steps_emit t0)
    as (b1 & l1 & t1 & E1 & Ev1 & F1 & R1 & H1).
  destruct (H1 _ _ eq_refl) as (l1' & ->).
  destruct (for_steps_trace "QA Jobs Test" qa_jobs_steps qa_jobs_steps_emit t1)
    as (b2 & l2 & t2 & E2 & Ev2 & F2 & R2 & H2).
  destruct (H2 _ _ eq_refl) as (l2' & ->).
  simpl in R1. rewrite R1 in R2. simpl in R2.
  pose (t3 := {| tworld :=
                   snd (report (test_results t2)
                          (record (Log INFO (nl ++ "Test Results:")) (tworld t2)));
                 test_results := test_results t2 |}).
  destruct (finally_trace t3) as (r & l3 & t' & Ef & Evf & Hl3 & Rf).
  exists b1, l1', t1, b2, l2'.
  exists ("Homepage Test" ++ ": " ++ name_of (verdict_of b1) ++ " "
          ++ (if TestResult_eqb (verdict_of b1) PASSED then "✅" else "❌")).
  exists ("QA Jobs Test" ++ ": " ++ name_of (verdict_of b2) ++ " "
          ++ (if TestResult_eqb (verdict_of b2) PASSED then "✅" else "❌")).
  exists l3.
  assert (Hbody :
    run_tests headless t =
      match bind teardown (fun _ => lift (log INFO "Test execution completed!")) t3 with
      | (Ret _, t'') => (Ret tt, t'')
      | (Raise e, t'') => (Raise e, t'')
      end).
  { unfold run_tests. rewrite (bind_Ret _ _ _ _ _ (init_returns headless t d HR)).
    unfold try_finally.
    erewrite bind_Ret by (rewrite lift_eq; reflexivity).
    erewrite bind_Ret by (exact E1).
    erewrite bind_Ret by (exact E2).
    erewrite bind_Ret by (rewrite lift_eq; reflexivity).
    rewrite lift_eq. simpl. rewrite report_returns. reflexivity. }
  rewrite Ef in Hbody.
  exists (match r with Ret _ => Ret tt | Raise e => Raise e end), t'.
  split; [exact E1|].
  split; [rewrite Ev1; reflexivity|].
  split; [inversion F1; assumption|].
  split; [rewrite Hbody; destruct r; reflexivity|].
  split.
  { rewrite Evf. subst t3. simpl. rewrite R2. simpl.
    destruct b1, b2; simpl; rewrite Ev2; repeat rewrite <- app_assoc; reflexivity. }
  split; [inversion F2; assumption|].
  split; [exact Hl3|].
  rewrite Rf. subst t3. simpl. exact R2.
Qed.

Lemma verdict_of_cases (b : bool) : verdict_of b = PASSED \/ verdict_of b = FAILED.
Proof.
  destruct b; [left | right]; reflexivity.
Qed.

(** C5. When the operation of a step raises [e]:
    - [run_test_step] catches it, logs the description of the step with
      [str(e)], and returns [False]; it returns [False] exactly for the steps
      that report failure, by a [False] or by an exception;
    - the case the step belongs to is recorded as [FAILED], with no further
      step;
    - when that case is the first one of a run, the run goes on with the
      second case, which starts its first step and records its own verdict. *)
Theorem C5_step_exception_is_caught :
  (forall (step : TestStep) (w w' : world) (e : exn),
      function step (record (Log INFO ("Executing step: " ++ description step)) w)
        = (Raise e, w') ->
      run_test_step step w =
        (Ret false,
         record (Log ERROR ("Step failed with exception: " ++ description step
                            ++ nl ++ str e)) w'))
  /\ (forall (step : TestStep) (w : world),
        fst (run_test_step step w) = Ret false <->
        reports_failure step
          (record (Log INFO ("Executing step: " ++ description step)) w))
  /\ (forall (case : string) (pre post : list TestStep) (s : TestStep) (t : test)
             (w1 w2 : world) (e : exn),
        all_pass pre (tworld t) = Some w1 ->
        function s (record (Log INFO ("Executing step: " ++ description s)) w1)
          = (Raise e, w2) ->
        for_steps case (pre ++ s :: post) t =
          (Ret false,
           {| tworld :=
                record (SetItem case FAILED)
                  (record (Log ERROR ("Step failed with exception: " ++ description s
                                      ++ nl ++ str e)) w2);
              test_results := dict_set (test_results t) case FAILED |}))
  /\ (forall (headless : bool) (t : test) (d : D) (pre post : list TestStep)
             (s : TestStep) (w1 w2 : world) (e : exn),
        Remote "http://chrome:4444/wd/hub" (chrome_arguments headless)
               (browser (tworld t)) = (Ret tt, d) ->
        homepage_steps = (pre ++ s :: post)%list ->
        all_pass pre (started headless t d) = Some w1 ->
        function s (record (Log INFO ("Executing step: " ++ description s)) w1)
          = (Raise e, w2) ->
        exists l2 v2 rest r t',
          run_tests headless t = (r, t')
          /\ events (tworld t') =
               (events w2
                ++ [Log ERROR ("Step failed with exception: " ++ description s
                               ++ nl ++ str e);
                    SetItem "Homepage Test" FAILED]
                ++ (Log INFO "Executing step: Navigating to careers page" :: l2)
                ++ [SetItem "QA Jobs Test" v2]
                ++ rest)%list
          /\ test_results t' = [("Homepage Test", FAILED); ("QA Jobs Test", v2)]).
Proof.
  assert (Hstep : forall (step : TestStep) (w w' : world) (e : exn),
    function step (record (Log INFO ("Executing step: " ++ description step)) w)
      = (Raise e, w') ->
    run_test_step step w =
      (Ret false,
       record (Log ERROR ("Step failed with exception: " ++ description step
                          ++ nl ++ str e)) w')).
  { intros step w w' e H. rewrite run_test_step_eq, H. reflexivity. }
  assert (Hcase : forall (case : string) (pre post : list TestStep) (s : TestStep)
                         (t : test) (w1 w2 : world) (e : exn),
    all_pass pre (tworld t) = Some w1 ->
    function s (record (Log INFO ("Executing step: " ++ description s)) w1)
      = (Raise e, w2) ->
    for_steps case (pre ++ s :: post) t =
      (Ret false,
       {| tworld :=
            record (SetItem case FAILED)
              (record (Log ERROR ("Step failed with exception: " ++ description s
                                  ++ nl ++ str e)) w2);
          test_results := dict_set (test_results t) case FAILED |})).
  { intros case pre post s t w1 w2 e Hpre Hraise.
    rewrite (for_steps_first_failure case pre post s t w1 Hpre)
      by (rewrite (Hstep _ _ _ _ Hraise); reflexivity).
    rewrite (Hstep _ _ _ _ Hraise). reflexivity. }
  split; [exact Hstep|].
  split; [exact run_test_step_false_iff|].
  split; [exact Hcase|].
  intros headless t d pre post s w1 w2 e HR Hsteps Hpre Hraise.
  destruct (run_tests_trace headless t d HR)
    as (b1 & l1 & t1 & b2 & l2 & m1 & m2 & l3 & r & t' &
        E1 & Ev1 & F1 & Erun & Ev & F2 & Hl3 & Eres).
  unfold test_homepage_loading in E1. cbv zeta in E1. rewrite Hsteps in E1.
  rewrite (Hcase "Homepage Test" pre post s
             {| tworld := started headless t d; test_results := [] |} w1 w2 e
             Hpre Hraise) in E1.
  injection E1 as <- <-.
  exists l2, (verdict_of b2). eexists. exists r, t'.
  split; [exact Erun|].
  split; [|exact Eres].
  rewrite Ev. simpl.
  repeat rewrite <- app_assoc. reflexivity.
Qed.

(** C6. Once the session has been created, a run of [run_tests] has this
    shape: the creation of the session comes first; then the log line of the
    start and everything the two cases do, with both verdicts and without
    any call to [quit]; then one call to [quit]; then at most the closing
    log line.  So [quit] is called exactly once, at the end, whatever the
    verdicts. *)
Theorem C6_session_created_first_released_once (headless : bool) (t : test) (d : D) :
  Remote "http://chrome:4444/wd/hub" (chrome_arguments headless)
         (browser (tworld t)) = (Ret tt, d) ->
  exists mid l3 v1 v2 r t',
    run_tests headless t = (r, t')
    /\ events (tworld t') =
         (events (tworld t)
          ++ Call (Remote_call "http://chrome:4444/wd/hub" (chrome_arguments headless))
          :: (Log INFO "Starting test execution..."
              :: Log INFO "Executing step: Navigating to homepage" :: mid)
          ++ Call quit_call :: l3)%list
    /\ quit_calls mid = 0%nat
    /\ writes_of mid = [("Homepage Test", v1); ("QA Jobs Test", v2)]
    /\ (l3 = [] \/ l3 = [Log INFO "Test execution completed!"])
    /\ quit_calls
         (Call (Remote_call "http://chrome:4444/wd/hub" (chrome_arguments headless))
          :: (Log INFO "Starting test execution..."
              :: Log INFO "Executing step: Navigating to homepage" :: mid)
          ++ Call quit_call :: l3) = 1%nat.
Proof.
  intros HR.
  destruct (run_tests_trace headless t d HR)
    as (b1 & l1 & t1 & b2 & l2 & m1 & m2 & l3 & r & t' &
        E1 & Ev1 & F1 & Erun & Ev & F2 & Hl3 & Eres).
  destruct (page_events_quiet l1 F1) as [W1 Q1].
  destruct (page_events_quiet l2 F2) as [W2 Q2].
  exists (l1 ++ [SetItem "Homepage Test" (verdict_of b1)]
          ++ (Log INFO "Executing step: Navigating to careers page" :: l2)
          ++ [SetItem "QA Jobs Test" (verdict_of b2)]
          ++ [Log INFO (nl ++ "Test Results:"); Log INFO m1; Log INFO m2])%list.
  exists l3, (verdict_of b1), (verdict_of b2), r, t'.
  split; [exact Erun|].
  split.
  { rewrite Ev, Ev1. unfold started, record. simpl.
    repeat (rewrite <- app_assoc; simpl). reflexivity. }
  split.
  { repeat (rewrite quit_calls_app; simpl). rewrite Q1, Q2. reflexivity. }
  split.
  { repeat (rewrite writes_of_app; simpl). rewrite W1, W2. reflexivity. }
  split; [exact Hl3|].
  simpl. repeat (rewrite quit_calls_app; simpl). rewrite Q1, Q2.
  destruct Hl3 as [-> | ->]; reflexivity.
Qed.

(** C7. After a run, the verdict mapping holds one entry for each of the two
    cases, in the order in which the cases ran; each entry was written once,
    after the first step of its case started and, for the first case, before
    the second case started. *)
Theorem C7_one_verdict_per_case_in_order (headless : bool) (t : test) (d : D) :
  Remote "http://chrome:4444/wd/hub" (chrome_arguments headless)
         (browser (tworld t)) = (Ret tt, d) ->
  exists v1 v2 a l1 l2 z r t',
    run_tests headless t = (r, t')
    /\ test_results t' = [("Homepage Test", v1); ("QA Jobs Test", v2)]
    /\ keys (test_results t') = ["Homepage Test"; "QA Jobs Test"]
    /\ events (tworld t') =
         (events (tworld t) ++ a
          ++ (Log INFO "Executing step: Navigating to homepage" :: l1)
          ++ SetItem "Homepage Test" v1
          :: (Log INFO "Executing step: Navigating to careers page" :: l2)
          ++ SetItem "QA Jobs Test" v2 :: z)%list
    /\ writes_of a = [] /\ writes_of l1 = [] /\ writes_of l2 = [] /\ writes_of z = [].
Proof.
  intros HR.
  destruct (run_tests_trace headless t d HR)
    as (b1 & l1 & t1 & b2 & l2 & m1 & m2 & l3 & r & t' &
        E1 & Ev1 & F1 & Erun & Ev & F2 & Hl3 & Eres).
  destruct (page_events_quiet l1 F1) as [W1 _].
  destruct (page_events_quiet l2 F2) as [W2 _].
  exists (verdict_of b1), (verdict_of b2).
  exists [Call (Remote_call "http://chrome:4444/wd/hub" (chrome_arguments headless));
          Log INFO "Starting test execution..."].
  exists l1, l2.
  exists ([Log INFO (nl ++ "Test Results:"); Log INFO m1; Log INFO m2]
          ++ Call quit_call :: l3)%list.
  exists r, t'.
  split; [exact Erun|].
  split; [exact Eres|].
  split; [rewrite Eres; reflexivity|].
  split.
  { rewrite Ev, Ev1. unfold started, record. simpl.
    repeat (rewrite <- app_assoc; simpl). reflexivity. }
  repeat split; try assumption.
  destruct Hl3 as [-> | ->]; reflexivity.
Qed.

(** C9. Every verdict a run writes is [PASSED] or [FAILED], and so is every
    entry of the mapping the run leaves, unless the session could not be
    created, in which case nothing is written at all. *)
Theorem C9_skipped_is_never_recorded (headless : bool) (t : test) :
  exists new,
    events (tworld (snd (run_tests headless t))) = (events (tworld t) ++ new)%list
    /\ Forall (fun kv => snd kv = PASSED \/ snd kv = FAILED) (writes_of new)
    /\ ((exists e d,
           Remote "http://chrome:4444/wd/hub" (chrome_arguments headless)
                  (browser (tworld t)) = (Raise e, d)
           /\ writes_of new = [])
        \/ Forall (fun kv => snd kv = PASSED \/ snd kv = FAILED)
             (test_results (snd (run_tests headless t)))).
Proof.
  destruct (Remote "http://chrome:4444/wd/hub" (chrome_arguments headless)
                   (browser (tworld t))) as [[[]|e] d] eqn:HR.
  - destruct (run_tests_trace headless t d HR)
      as (b1 & l1 & t1 & b2 & l2 & m1 & m2 & l3 & r & t' &
          E1 & Ev1 & F1 & Erun & Ev & F2 & Hl3 & Eres).
    destruct (page_events_quiet l1 F1) as [W1 _].
    destruct (page_events_quiet l2 F2) as [W2 _].
    rewrite Erun. simpl. rewrite Ev, Ev1. unfold started, record. simpl.
    eexists. split.
    { repeat (rewrite <- app_assoc; simpl). reflexivity. }
    split.
    { simpl. repeat (rewrite writes_of_app; simpl). rewrite W1, W2. simpl.
      destruct Hl3 as [-> | ->]; simpl;
        repeat (apply Forall_cons; [simpl; apply verdict_of_cases|]);
        apply Forall_nil. }
    right. rewrite Eres.
    repeat (apply Forall_cons; [simpl; apply verdict_of_cases|]).
    apply Forall_nil.
  - rewrite (init_raises headless t e d HR). simpl.
    eexists. split; [reflexivity|]. simpl. split; [constructor|].
    left. exists e, d. split; reflexivity.
Qed.

(** ** C2: the exits of [view_first_role] *)

Lemma safe_click_default_clicked (el : element) (w : world) (d : D) :
  click el (browser w) = (Ret tt, d) ->
  safe_click_default el w =
    (Ret true, {| browser := d; events := events w ++ [Call (click_call el)] |}).
Proof.
  intros Hc. unfold safe_click_default, safe_click.
  change (range 10) with (0 :: map Z.of_nat (seq 1 9)).
  cbn [safe_click_loop].
  unfold safe_click_attempt, try_except, bind, when, ret. simpl.
  rewrite call_eq, Hc. reflexivity.
Qed.

(** For any driver: when the context opened by the click never shows the
    Lever address, the method returns [False] right after the wait; the last
    two things it did to the browser are the switch to the new context and
    that wait.  It neither closes the new context nor switches back. *)
Lemma view_first_role_wrong_address (self : BasePage) (w : world)
  (b : element) (bs : list element) (orig h new : handle) (hs : list handle)
  (e : exn) (d1 d2 d3 d4 d5 d6 d7 d8 : D) :
  find_elements (CSS_SELECTOR, ".position-list-item-wrapper .btn.btn-navy")
                (browser w) = (Ret (b :: bs), d1) ->
  current_window_handle d1 = (Ret orig, d2) ->
  window_handles d2 = (Ret [h], d3) ->
  click b d3 = (Ret tt, d4) ->
  until_true (timeout self) more_than_one_window d4 = (Ret true, d5) ->
  window_handles d5 = (Ret hs, d6) ->
  hd_error (filter (fun x => negb (String.eqb x orig)) hs) = Some new ->
  switch_to_window new d6 = (Ret tt, d7) ->
  until_true (py_or None (timeout self)) (url_contains "jobs.lever.co") d7
    = (Raise e, d8) ->
  is_class TimeoutException e = true ->
  CareersPage_view_first_role self w =
    (Ret false,
     {| browser := d8;
        events :=
          events w
          ++ [Sleep 10%Q;
              Call (find_elements_call
                      (CSS_SELECTOR, ".position-list-item-wrapper .btn.btn-navy"));
              Sleep 10%Q;
              Call current_window_handle_call;
              Call window_handles_call;
              Call (click_call b);
              Call (until_call (timeout self) more_than_one_window);
              Call window_handles_call;
              Call (switch_to_window_call new);
              Call (until_call (py_or None (timeout self))
                               (url_contains "jobs.lever.co"))] |}).
Proof.
  intros Hfind Hcur Hone Hclick Hwait Hall Hnew Hswitch Hurl Htimeout.
  destruct (filter (fun x => negb (String.eqb x orig)) hs) as [|new' rest] eqn:Hf;
    [discriminate Hnew|]. injection Hnew as ->.
  unfold CareersPage_view_first_role, try_except.
  erewrite bind_Ret by reflexivity.
  erewrite bind_Ret by reflexivity.
  erewrite bind_Ret by (apply call_Ret; exact Hfind). cbv beta iota.
  erewrite bind_Ret by reflexivity.
  erewrite bind_Ret by (apply call_Ret; exact Hcur).
  erewrite bind_Ret by (apply call_Ret; exact Hone).
  cbn [List.length Nat.eqb negb]. cbv beta iota.
  erewrite bind_Ret by reflexivity.
  erewrite bind_Ret by (apply safe_click_default_clicked; exact Hclick).
  erewrite bind_Ret by (apply call_Ret; exact Hwait).
  cbn [negb]. cbv beta iota.
  erewrite bind_Ret by (apply call_Ret; exact Hall).
  rewrite Hf.
  erewrite bind_Ret by reflexivity.
  erewrite bind_Ret by (apply call_Ret; exact Hswitch).
  erewrite bind_Ret
    by (unfold wait_for_url_contains, try_except;
        erewrite bind_Raise by (apply call_Raise; exact Hurl);
        unfold except_class; rewrite Htimeout; reflexivity).
  cbn [negb]. cbv beta iota. unfold ret. cbv beta iota.
  unfold record. cbn [events browser].
  repeat rewrite <- app_assoc. reflexivity.
Qed.

(** ** C10: the two [navigate] methods *)

(** C10. Once [driver.get] has returned for the careers address,
    [CareersPage.navigate] returns [True] without another call to the
    browser.  [HomePage.navigate] is different: once [driver.get] has returned
    for the home address, it goes on with [is_loaded] and returns what that
    check returns (and [False], with a log record, should the check raise). *)
Theorem C10_careers_navigate_does_not_verify (careers home : BasePage) (w : world) :
  (forall d',
      get CareersPage_URL (browser w) = (Ret tt, d') ->
      CareersPage_navigate careers w =
        (Ret true,
         {| browser := d'; events := events w ++ [Call (get_call CareersPage_URL)] |}))
  /\ (forall d'',
        get HomePage_URL (browser w) = (Ret tt, d'') ->
        HomePage_navigate home w =
          match HomePage_is_loaded home
                  {| browser := d'';
                     events := events w ++ [Call (get_call HomePage_URL)] |} with
          | (Ret b, w2) => (Ret b, w2)
          | (Raise e, w2) =>
              (Ret false,
               record (Log ERROR ("Navigation to homepage failed: " ++ str e)) w2)
          end).
Proof.
  split.
  - intros d' Hget. unfold CareersPage_navigate, try_except, bind, ret.
    rewrite call_eq, Hget. reflexivity.
  - intros d'' Hget.
    unfold HomePage_navigate, try_except, except_Exception, bind.
    rewrite call_eq, Hget. cbn [fst snd].
    destruct (HomePage_is_loaded home _) as [[b|e] w2]; reflexivity.
Qed.

End Pages.

(** ** Runs on the scripted browser *)

Import FakeBrowser.

(** Two intercepted clicks, then one that goes through: three attempts are
    enough.  A stale element, an interception, and a stale element again on
    the third and last attempt: that last error comes out. *)
Lemma C1_safe_click_retries_witness :
  (exists evs,
     safe_click 0%nat 3 1%Q (world_of (obstructed 2)) =
       (Ret true, {| Insider.browser := obstructed 0; events := evs |}))
  /\ fst (safe_click 0%nat 3 1%Q
            (ScriptedBrowser.world_of
               (ScriptedBrowser.with_clicks
                  [Raise ScriptedBrowser.stale_error;
                   Raise ScriptedBrowser.intercepted_error;
                   Raise ScriptedBrowser.stale_error] ScriptedBrowser.quiet)))
     = Raise ScriptedBrowser.stale_error.
Proof.
  assert (HK : 1 <= 3) by lia.
  assert (Hdelay : (0 <= 1 <= 86400)%Q) by (split; unfold Qle; simpl; lia).
  split.
  - destruct (@C1_safe_click_retries browser driver 3 0%nat 1%Q
                (world_of (obstructed 2)) HK Hdelay) as [H _].
    apply (H (obstructed 0) (obstructed 0)).
    + repeat (econstructor; try reflexivity).
    + reflexivity.
  - set (s0 := ScriptedBrowser.with_clicks
                 [Raise ScriptedBrowser.stale_error;
                  Raise ScriptedBrowser.intercepted_error;
                  Raise ScriptedBrowser.stale_error] ScriptedBrowser.quiet).
    set (s1 := ScriptedBrowser.with_clicks
                 [Raise ScriptedBrowser.intercepted_error;
                  Raise ScriptedBrowser.stale_error] ScriptedBrowser.quiet).
    set (s2 := ScriptedBrowser.with_clicks
                 [Raise ScriptedBrowser.stale_error] ScriptedBrowser.quiet).
    destruct (@C1_safe_click_retries ScriptedBrowser.script ScriptedBrowser.driver
                3 0%nat 1%Q (ScriptedBrowser.world_of s0) HK Hdelay) as (_ & _ & H).
    assert (Hprefix : retried_attempts 0%nat 2 s0 s2).
    { apply retried_other with (e := ScriptedBrowser.stale_error) (d1 := s1);
        [reflexivity | reflexivity |].
      apply retried_intercepted
        with (e := ScriptedBrowser.intercepted_error) (d1 := s2) (d2 := s2);
        [reflexivity | reflexivity | reflexivity |].
      apply retried_O. }
    destruct (H s2 ScriptedBrowser.quiet ScriptedBrowser.stale_error
                Hprefix eq_refl eq_refl) as [evs Hrun].
    rewrite Hrun. reflexivity.
Defined.

(** C1 as stated fails: with the click intercepted on each of three
    attempts, nothing propagates out of [safe_click]; it returns [False]. *)
Lemma C1_obstructed_every_time_returns_false :
  obstructed_attempts 0%nat 3 (obstructed 3) (obstructed 0)
  /\ fst (safe_click 0%nat 3 1%Q (world_of (obstructed 3))) = Ret false
  /\ ~ (exists e w', safe_click 0%nat 3 1%Q (world_of (obstructed 3)) = (Raise e, w')).
Proof.
  split; [repeat (econstructor; try reflexivity)|].
  split; [reflexivity|].
  intros (e & w' & H). vm_compute in H. discriminate H.
Qed.

(** C2. The "View Role" button opens a context whose address never contains
    [jobs.lever.co]: [view_first_role] returns [False] and the new context,
    not the original one, is left active and open. *)
Theorem C2_view_first_role_leaves_new_context_active :
  let w := world_of wrong_target in
  let r := CareersPage_view_first_role CareersPage_init w in
  current (Insider.browser w) = "w0"
  /\ fst r = Ret false
  /\ current (Insider.browser (snd r)) = "w1"
  /\ keys (windows (Insider.browser (snd r))) = ["w0"; "w1"].
Proof.
  vm_compute. repeat split.
Qed.

(** The path on which the Lever form does load closes the new context and
    switches back. *)
Lemma view_first_role_success_restores :
  let w := world_of lever_target in
  let r := CareersPage_view_first_role CareersPage_init w in
  fst r = Ret true
  /\ current (Insider.browser (snd r)) = "w0"
  /\ keys (windows (Insider.browser (snd r))) = ["w0"].
Proof.
  vm_compute. repeat split.
Qed.

(** The landmark never shows: the careers page "navigates" all the same, the
    home page does not. *)
Lemma C10_careers_navigate_does_not_verify_witness :
  fst (CareersPage_navigate CareersPage_init (world_of blank_page)) = Ret true
  /\ fst (HomePage_navigate HomePage_init (world_of blank_page)) = Ret false.
Proof.
  destruct (@C10_careers_navigate_does_not_verify browser driver
              CareersPage_init HomePage_init (world_of blank_page)) as [Hc Hh].
  split.
  - rewrite (Hc (snd (fake_get CareersPage_URL blank_page)) eq_refl). reflexivity.
  - rewrite (Hh (snd (fake_get HomePage_URL blank_page)) eq_refl). reflexivity.
Defined.

(** The landmark never shows: the first step of the first case fails, the
    case is [FAILED] and the three steps after it leave no trace. *)
Lemma C4_first_failing_step_fails_the_case_witness :
  fst (test_homepage_loading (test_of blank_page)) = Ret false
  /\ test_results (snd (test_homepage_loading (test_of blank_page)))
     = [("Homepage Test", FAILED)].
Proof.
  pose (s := {| name := "navigate"; function := HomePage_navigate HomePage_init;
                description := "Navigating to homepage" |} : TestStep (D := browser)).
  assert (Hpre : all_pass [] (tworld (test_of blank_page)) = Some (world_of blank_page))
    by reflexivity.
  assert (Hfail : reports_failure s
            (record (Log INFO ("Executing step: " ++ description s))
                    (world_of blank_page)))
    by (vm_compute; exact I).
  destruct (@C4_first_failing_step_fails_the_case browser driver "Homepage Test"
              [] (tl homepage_steps) s (test_of blank_page) (world_of blank_page)
              Hpre Hfail) as (_ & _ & _ & Hhome & _).
  rewrite (Hhome eq_refl eq_refl). split; reflexivity.
Defined.

(** The remote end dies after the first wait: the second step of the first
    case raises, the case is [FAILED], and the second case still runs. *)
Lemma C5_step_exception_is_caught_witness :
  exists v2,
    test_results (snd (run_tests false (test_of dies_after_one_wait)))
    = [("Homepage Test", FAILED); ("QA Jobs Test", v2)].
Proof.
  pose (t := test_of dies_after_one_wait).
  pose (s1 := {| name := "navigate"; function := HomePage_navigate HomePage_init;
                 description := "Navigating to homepage" |} : TestStep (D := browser)).
  pose (s2 := {| name := "verify"; function := HomePage_is_loaded HomePage_init;
                 description := "Verifying homepage loaded" |} : TestStep (D := browser)).
  pose (w1 := snd (run_test_step s1 (started false t dies_after_one_wait))).
  pose (w2 := snd (function s2
                     (record (Log INFO ("Executing step: " ++ description s2)) w1))).
  pose (e := {| class_of := WebDriverException; str := "chrome not reachable" |}).
  assert (HR : Remote "http://chrome:4444/wd/hub" (chrome_arguments false)
                      (Insider.browser (tworld t)) = (Ret tt, dies_after_one_wait))
    by reflexivity.
  assert (Hsteps : homepage_steps = ([s1] ++ s2 :: tl (tl homepage_steps))%list)
    by reflexivity.
  assert (Hpre : all_pass [s1] (started false t dies_after_one_wait) = Some w1)
    by reflexivity.
  assert (Hraise : function s2
                     (record (Log INFO ("Executing step: " ++ description s2)) w1)
                   = (Raise e, w2))
    by reflexivity.
  destruct (@C5_step_exception_is_caught browser driver) as (_ & _ & _ & Hrun).
  destruct (Hrun false t dies_after_one_wait [s1] (tl (tl homepage_steps)) s2 w1 w2 e
              HR Hsteps Hpre Hraise)
    as (l2 & v2 & rest & r & t' & Erun & _ & Eres).
  exists v2. fold t. rewrite Erun. exact Eres.
Defined.

(** A run on a fresh session calls [quit] once. *)
Lemma C6_session_created_first_released_once_witness :
  quit_calls (events (tworld (snd (run_tests false (test_of fresh))))) = 1%nat.
Proof.
  assert (HR : Remote "http://chrome:4444/wd/hub" (chrome_arguments false)
                      (Insider.browser (tworld (test_of fresh))) = (Ret tt, fresh))
    by reflexivity.
  destruct (@C6_session_created_first_released_once browser driver false
              (test_of fresh) fresh HR)
    as (mid & l3 & v1 & v2 & r & t' & Erun & Ev & _ & _ & _ & Hq).
  rewrite Erun. simpl. rewrite Ev. exact Hq.
Defined.

(** A run on a fresh session leaves the two verdicts, in order. *)
Lemma C7_one_verdict_per_case_in_order_witness :
  keys (test_results (snd (run_tests false (test_of fresh))))
  = ["Homepage Test"; "QA Jobs Test"].
Proof.
  assert (HR : Remote "http://chrome:4444/wd/hub" (chrome_arguments false)
                      (Insider.browser (tworld (test_of fresh))) = (Ret tt, fresh))
    by reflexivity.
  destruct (@C7_one_verdict_per_case_in_order browser driver false
              (test_of fresh) fresh HR)
    as (v1 & v2 & a & l1 & l2 & z & r & t' & Erun & _ & Hkeys & _).
  rewrite Erun. exact Hkeys.
Defined.

End InsiderProps.

(** * More on the provisioning controller *)

Module K8sMore.
Import K8s K8sProps.

Unset Implicit Arguments.

#[local] Arguments perform : simpl never.
#[local] Arguments String.append : simpl never.
#[local] Arguments str_of_int : simpl never.

Section Controller.
Context {K : Type} {api : ApiClient K}.

(** One equation per call of a block of calls that all return. *)
Ltac split_succeed H :=
  simpl in H;
  repeat match type of H with
  | context [perform ?c ?k0] =>
      let E := fresh "E" in
      destruct (perform c k0) as [[[]|?] ?k] eqn:E; [|discriminate H]
  end;
  injection H as H; subst.

Ltac run_calls :=
  repeat first
    [ rewrite api_call_eq; simpl
    | match goal with
      | E : perform ?c ?k = _ |- context [perform ?c ?k] => rewrite E; simpl
      end ].

Lemma error_logs_app (l1 l2 : list event) :
  error_logs (l1 ++ l2) = (error_logs l1 ++ error_logs l2)%list.
Proof.
  apply filter_app.
Qed.

(** The run of [deploy_resources] on a cluster that accepts everything. *)
Lemma deploy_resources_all_created (self : KubernetesTestController) (w : world)
  (k' : K) :
  all_succeed (create_calls self) (cluster w) = Some k' ->
  exists evs,
    deploy_resources self w =
      (Ret tt, {| cluster := k'; events := (events w ++ evs)%list |})
    /\ calls_of evs = create_calls self
    /\ error_logs evs = [].
Proof.
  intros H. unfold create_calls in H. split_succeed H.
  unfold deploy_resources, deploy_chrome, deploy_selenium_test, bind, try_except,
    log; simpl; run_calls.
  repeat rewrite <- app_assoc; simpl.
  eexists. split; [reflexivity|]. split; reflexivity.
Qed.

(** X1. When the four create-resource calls return, [deploy_resources]
    returns; it has made exactly those four calls, in program order, and has
    logged no error. *)
Theorem deploy_resources_creates_all (self : KubernetesTestController) (w : world)
  (k' : K) :
  all_succeed (create_calls self) (cluster w) = Some k' ->
  exists evs,
    deploy_resources self w =
      (Ret tt, {| cluster := k'; events := (events w ++ evs)%list |})
    /\ calls_of evs = create_calls self
    /\ error_logs evs = [].
Proof.
  apply deploy_resources_all_created.
Qed.

(** X2. An error of the client that is not an [ApiException] is not turned
    into an exit: it leaves [deploy_resources] as it is, after the failed
    call, and no error is logged for it. *)
Theorem deploy_resources_other_error (self : KubernetesTestController) (w : world)
  (pre post : list api_call) (c : api_call) (k1 k2 : K) (e : exn) :
  create_calls self = (pre ++ c :: post)%list ->
  all_succeed pre (cluster w) = Some k1 ->
  perform c k1 = (Raise e, k2) ->
  (forall reason, e <> ApiException reason) ->
  exists evs,
    deploy_resources self w =
      (Raise e, {| cluster := k2; events := (events w ++ evs)%list |})
    /\ calls_of evs = (pre ++ [c])%list
    /\ error_logs evs = [].
Proof.
  intros Hc Hpre Hfail Hother. unfold create_calls in Hc.
  assert (Hh : forall A (h : exn -> M (K := K) A), except_ApiException h e = None).
  { intros A h. destruct e; try reflexivity. now contradiction (Hother reason). }
  destruct pre as [|p0 [|p1 [|p2 [|p3 pre]]]]; simpl in Hc;
    injection Hc as; subst;
    [ | | | | destruct pre; discriminate ];
    split_succeed Hpre;
    unfold deploy_resources, deploy_chrome, deploy_selenium_test, bind, try_except,
      log; simpl; run_calls; rewrite Hh;
    repeat rewrite <- app_assoc; simpl;
    eexists; (split; [reflexivity|]); split; reflexivity.
Qed.

(** X3. The constructor asks for the in-cluster configuration first.  When
    that returns, the local kubeconfig is never read.  When it raises,
    whatever it raises, the constructor falls back to the local kubeconfig,
    and an error of that second load is what the constructor raises. *)
Theorem init_prefers_in_cluster_config (n : Z) (w : world) :
  (forall k1,
      load_incluster_config (cluster w) = (Ret tt, k1) ->
      init n w =
        (Ret {| node_count := py_max 1 (py_min n 5) |},
         {| cluster := k1;
            events := events w ++ [Call load_incluster_config_call;
                                   Log INFO "Using in-cluster Kubernetes config"] |}))
  /\ (forall e1 k1 r k2,
      load_incluster_config (cluster w) = (Raise e1, k1) ->
      load_kube_config k1 = (r, k2) ->
      init n w =
        (match r with
         | Ret _ => Ret {| node_count := py_max 1 (py_min n 5) |}
         | Raise e2 => Raise e2
         end,
         {| cluster := k2;
            events := events w ++ [Call load_incluster_config_call;
                                   Log INFO "Falling back to local kubeconfig";
                                   Call load_kube_config_call] |})).
Proof.
  split.
  - intros k1 H. unfold init, bind, try_except, log, ret.
    rewrite api_call_eq. unfold perform. rewrite H. simpl.
    now rewrite <- app_assoc.
  - intros e1 k1 r k2 H1 H2. unfold init, bind, try_except, log, ret.
    rewrite api_call_eq. unfold perform. rewrite H1. simpl.
    rewrite api_call_eq. unfold perform. simpl. rewrite H2. simpl.
    repeat rewrite <- app_assoc. destruct r as [[]|e2]; reflexivity.
Qed.

(** X4. A [NODE_COUNT] that is not an integer literal makes [main] raise
    [ValueError] before anything is logged or any call is made to the
    client; the process exits with status 1.  An unset [NODE_COUNT] is read
    as ["1"]. *)
Theorem main_rejects_bad_node_count (py_int : string -> option Z)
  (NODE_COUNT : string) (w : world) :
  py_int NODE_COUNT = None ->
  (exists reason, main py_int (Some NODE_COUNT) w = (Raise (ValueError reason), w))
  /\ exit_status (fst (main py_int (Some NODE_COUNT) w)) = 1
  /\ main py_int None w = main py_int (Some "1") w.
Proof.
  intros H. unfold main, bind, raise. rewrite H.
  split; [eexists; reflexivity|]. split; reflexivity.
Qed.

(** X5. From the environment to the cluster: with a [NODE_COUNT] that reads
    as [n], a configuration that loads and a cluster that accepts the four
    resources, [main] ends with exit status 0, and the first resource it has
    created is the Chrome deployment with [max(1, min(n, 5))] replicas. *)
Theorem main_provisions (py_int : string -> option Z) (NODE_COUNT : option string)
  (n : Z) (w w1 : world) (c : KubernetesTestController) (k' : K) :
  py_int (match NODE_COUNT with Some s => s | None => "1" end) = Some n ->
  init n w = (Ret c, w1) ->
  all_succeed (create_calls c) (cluster w1) = Some k' ->
  exists evs body,
    main py_int NODE_COUNT w =
      (Ret tt, {| cluster := k'; events := (events w1 ++ evs)%list |})
    /\ exit_status (fst (main py_int NODE_COUNT w)) = 0
    /\ hd_error (calls_of evs) = Some (create_namespaced_deployment_call "default" body)
    /\ mpath body ["spec"; "replicas"] = Some (MInt (Z.max 1 (Z.min n 5)))
    /\ List.length (calls_of evs) = 4%nat.
Proof.
  intros Hint Hinit Hall.
  destruct (deploy_resources_all_created c w1 k' Hall) as (evs & Hrun & Hcalls & _).
  assert (Hmain : main py_int NODE_COUNT w =
                    (Ret tt, {| cluster := k'; events := (events w1 ++ evs)%list |})).
  { unfold main. rewrite Hint. unfold bind at 1. unfold ret at 1.
    unfold bind. rewrite Hinit. exact Hrun. }
  exists evs, (chrome_deployment c).
  split; [exact Hmain|].
  split; [rewrite Hmain; reflexivity|].
  rewrite Hcalls. split; [reflexivity|].
  split; [|reflexivity].
  rewrite (init_result _ _ Hinit). simpl.
  now rewrite py_max_spec, py_min_spec.
Qed.

(** X6. Whatever count the controller was built from, the Chrome deployment
    asks for a number of replicas that lies between the [minReplicas] and the
    [maxReplicas] of the autoscaler created next to it. *)
Theorem replicas_within_autoscaler_bounds (n : Z) (w w' : world)
  (c : KubernetesTestController) :
  init n w = (Ret c, w') ->
  exists r lo hi,
    mpath (chrome_deployment c) ["spec"; "replicas"] = Some (MInt r)
    /\ mpath chrome_hpa ["spec"; "minReplicas"] = Some (MInt lo)
    /\ mpath chrome_hpa ["spec"; "maxReplicas"] = Some (MInt hi)
    /\ lo <= r <= hi.
Proof.
  intros H. rewrite (init_result _ _ H).
  exists (py_max 1 (py_min n 5)), 1, 5.
  repeat split; rewrite py_max_spec, py_min_spec; lia.
Qed.

End Controller.

(** ** Runs on the scripted clusters *)

(** A cluster with room for four resources gets all four. *)
Lemma deploy_resources_creates_all_witness :
  exists evs,
    deploy_resources {| node_count := 2 |} (FakeCluster.start 4) =
      (Ret tt,
       {| cluster := {| FakeCluster.quota := 0;
                        FakeCluster.created := create_calls {| node_count := 2 |} |};
          events := evs |})
    /\ List.length (calls_of evs) = 4%nat.
Proof.
  assert (H : all_succeed (create_calls {| node_count := 2 |})
                          (cluster (FakeCluster.start 4))
              = Some {| FakeCluster.quota := 0;
                        FakeCluster.created := create_calls {| node_count := 2 |} |})
    by reflexivity.
  destruct (@deploy_resources_creates_all FakeCluster.cluster FakeCluster.client
              {| node_count := 2 |} (FakeCluster.start 4) _ H)
    as (evs & Hrun & Hcalls & _).
  exists evs. split; [exact Hrun|]. rewrite Hcalls. reflexivity.
Defined.

(** The service is refused as malformed: the [ValueError] comes out of
    [deploy_resources] unchanged. *)
Lemma deploy_resources_other_error_witness :
  exists w',
    deploy_resources {| node_count := 1 |} StrictCluster.start =
      (Raise (ValueError "Invalid value for `spec`, must not be `None`"), w')
    /\ error_logs (events w') = [].
Proof.
  pose (self := {| node_count := 1 |}).
  pose (k := {| StrictCluster.accepted := firstn 1 (create_calls self) |}).
  assert (Hc : create_calls self
               = (firstn 1 (create_calls self)
                  ++ create_namespaced_service_call "default" chrome_service
                  :: skipn 2 (create_calls self))%list) by reflexivity.
  assert (Hpre : all_succeed (firstn 1 (create_calls self))
                             (cluster StrictCluster.start) = Some k) by reflexivity.
  assert (Hfail : perform (create_namespaced_service_call "default" chrome_service) k
                  = (Raise (ValueError "Invalid value for `spec`, must not be `None`"), k))
    by reflexivity.
  assert (Hother : forall reason,
             ValueError "Invalid value for `spec`, must not be `None`"
             <> ApiException reason) by (intros reason; discriminate).
  destruct (@deploy_resources_other_error StrictCluster.cluster StrictCluster.client
              self StrictCluster.start _ _ _ _ _ _ Hc Hpre Hfail Hother)
    as (evs & Hrun & _ & Hlogs).
  eexists. split; [exact Hrun|]. exact Hlogs.
Defined.

(** In-cluster on one cluster, local kubeconfig on the other. *)
Lemma init_prefers_in_cluster_config_witness :
  calls_of (events (snd (init 3 StrictCluster.start))) = [load_incluster_config_call]
  /\ calls_of (events (snd (init 3 (FakeCluster.start 0))))
     = [load_incluster_config_call; load_kube_config_call].
Proof.
  destruct (@init_prefers_in_cluster_config StrictCluster.cluster StrictCluster.client
              3 StrictCluster.start) as [Hin _].
  destruct (@init_prefers_in_cluster_config FakeCluster.cluster FakeCluster.client
              3 (FakeCluster.start 0)) as [_ Hout].
  split.
  - rewrite (Hin _ eq_refl). reflexivity.
  - rewrite (Hout _ _ _ _ eq_refl eq_refl). reflexivity.
Defined.

Lemma main_rejects_bad_node_count_witness :
  exists reason,
    main FakeCluster.py_int (Some "many") (FakeCluster.start 4)
    = (Raise (ValueError reason), FakeCluster.start 4).
Proof.
  assert (H : FakeCluster.py_int "many" = None) by reflexivity.
  exact (proj1 (@main_rejects_bad_node_count FakeCluster.cluster FakeCluster.client
                  FakeCluster.py_int "many" (FakeCluster.start 4) H)).
Defined.

(** [NODE_COUNT=9]: five replicas are asked for. *)
Lemma main_provisions_witness :
  exists evs body,
    exit_status (fst (main FakeCluster.py_int (Some "9") (FakeCluster.start 4))) = 0
    /\ hd_error (calls_of evs)
       = Some (create_namespaced_deployment_call "default" body)
    /\ mpath body ["spec"; "replicas"] = Some (MInt 5).
Proof.
  pose (w := FakeCluster.start 4).
  pose (c := {| node_count := 5 |}).
  assert (Hint : FakeCluster.py_int "9" = Some 9) by reflexivity.
  assert (Hinit : init 9 w = (Ret c, snd (init 9 w))) by reflexivity.
  assert (Hall : all_succeed (create_calls c) (cluster (snd (init 9 w)))
                 = Some {| FakeCluster.quota := 0;
                           FakeCluster.created := create_calls c |}) by reflexivity.
  destruct (@main_provisions FakeCluster.cluster FakeCluster.client FakeCluster.py_int
              (Some "9") 9 w _ c _ Hint Hinit Hall)
    as (evs & body & _ & Hexit & Hhd & Hrep & _).
  exists evs, body. split; [exact Hexit|]. split; [exact Hhd | exact Hrep].
Defined.

Lemma replicas_within_autoscaler_bounds_witness :
  exists r,
    mpath (chrome_deployment {| node_count := 1 |}) ["spec"; "replicas"] = Some (MInt r)
    /\ 1 <= r <= 5.
Proof.
  assert (Hinit : init (-3) (FakeCluster.start 4)
                  = (Ret {| node_count := 1 |}, snd (init (-3) (FakeCluster.start 4))))
    by reflexivity.
  destruct (@replicas_within_autoscaler_bounds FakeCluster.cluster FakeCluster.client
              (-3) (FakeCluster.start 4) _ _ Hinit)
    as (r & lo & hi & Hr & Hlo & Hhi & Hle).
  exists r. split; [exact Hr|].
  injection Hlo as <-. injection Hhi as <-. exact Hle.
Defined.

End K8sMore.

(** * More on the acceptance-test harness *)

Module InsiderMore.
Import Insider InsiderProps.

Unset Implicit Arguments.

#[local] Arguments is_class : simpl never.
#[local] Arguments String.append : simpl never.
#[local] Arguments str_of_int : simpl never.

Section Pages.
Context {D : Type} {drv : WebDriver D}.

Local Abbreviation world := (@Insider.world D).
Local Abbreviation test := (@Insider.test D).
Local Abbreviation M := (@Insider.M D).
Local Abbreviation T := (@Insider.T D).
Local Abbreviation TestStep := (@Insider.TestStep D).
Local Abbreviation emits m := (@Insider.emits D _ m).

(** ** Waits and their timeout *)


(** ** [safe_click] *)

Lemma count_app (p : event -> bool) (l1 l2 : list event) :
  count p (l1 ++ l2) = (count p l1 + count p l2)%nat.
Proof.
  unfold count. now rewrite filter_app, length_app.
Qed.

Lemma range_nonpositive (K : Z) : K <= 0 -> range K = [].
Proof.
  intros H. unfold range. now replace (Z.to_nat K) with 0%nat by lia.
Qed.

Lemma range_first (K : Z) :
  1 <= K -> range K = 0 :: map Z.of_nat (seq 1 (Z.to_nat (K - 1))).
Proof.
  intros H. unfold range.
  replace (Z.to_nat K) with (S (Z.to_nat (K - 1))) by lia. reflexivity.
Qed.

(** X8. With an attempt budget of 0 or less the loop body never runs:
    [safe_click] returns [False] and does nothing, not even one click. *)
Theorem safe_click_without_attempts (K : Z) (el : element) (delay : Q) (w : world) :
  K <= 0 -> safe_click el K delay w = (Ret false, w).
Proof.
  intros H. unfold safe_click. now rewrite (range_nonpositive K H).
Qed.

(** One attempt clicks once, sleeps first unless it is attempt 0, and
    scrolls at most once. *)
Lemma safe_click_attempt_counts (el : element) (R : Z) (delay : Q) (a : Z)
  (w : world) :
  sleep_accepts delay = true ->
  exists evs,
    events (snd (safe_click_attempt el R delay a w)) = (events w ++ evs)%list
    /\ count is_click evs = 1%nat
    /\ count is_sleep evs = (if 0 <? a then 1%nat else 0%nat)
    /\ (count is_scroll evs <= 1)%nat.
Proof.
  intros Hd. apply andb_true_iff in Hd. destruct Hd as [Hd0 Hd1].
  unfold safe_click_attempt, try_except, bind, when, sleep, log, ret, raise, record.
  rewrite Hd0, Hd1.
  destruct (0 <? a); simpl; rewrite call_eq; simpl;
    destruct (click el _) as [[[]|e] d1]; simpl;
    try (destruct (is_class ElementClickInterceptedException e); simpl;
         [rewrite call_eq; simpl; destruct (execute_script scroll_script el d1)
            as [[[]|e'] d2]; simpl
         | destruct (a =? R - 1); simpl]);
    repeat rewrite <- app_assoc; simpl;
    eexists; (split; [reflexivity|]); cbv [count filter is_click is_sleep is_scroll
      List.length]; repeat split; lia.
Qed.

(** Over attempts that are all positive, every click is preceded by its
    sleep. *)
Lemma safe_click_loop_counts (el : element) (R : Z) (delay : Q)
  (attempts : list Z) :
  sleep_accepts delay = true ->
  Forall (fun a => 0 < a) attempts ->
  forall w : world,
  exists evs,
    events (snd (safe_click_loop el R delay attempts w)) = (events w ++ evs)%list
    /\ (count is_click evs <= List.length attempts)%nat
    /\ count is_sleep evs = count is_click evs
    /\ (count is_scroll evs <= count is_click evs)%nat.
Proof.
  intros Hd.
  induction 1 as [|a rest Ha _ IH]; intros w.
  - exists []. simpl. rewrite app_nil_r. repeat split; reflexivity || lia.
  - cbn [safe_click_loop]. unfold bind.
    destruct (safe_click_attempt_counts el R delay a w Hd) as (e1 & E1 & C1 & S1 & X1).
    replace (0 <? a) with true in S1 by (symmetry; apply Z.ltb_lt; exact Ha).
    destruct (safe_click_attempt el R delay a w) as [[[b|]|e] w1]; simpl in E1 |- *.
    + exists e1. unfold ret. simpl. repeat split; try assumption; lia.
    + destruct (IH w1) as (e2 & E2 & C2 & S2 & X2).
      exists (e1 ++ e2)%list. rewrite E2, E1, app_assoc.
      repeat rewrite count_app. repeat split; lia.
    + exists e1. repeat split; try assumption; lia.
Qed.

(** X9. With a budget [K >= 1] and a delay from nothing to a day,
    [safe_click] clicks at least once and at most [K] times, sleeps between
    two clicks and never before the first (one sleep less than clicks), and
    scrolls no more often than it clicks. *)
Theorem safe_click_bounds (K : Z) (el : element) (delay : Q) (w : world) :
  1 <= K ->
  (0 <= delay <= 86400)%Q ->
  exists evs,
    events (snd (safe_click el K delay w)) = (events w ++ evs)%list
    /\ (1 <= count is_click evs <= Z.to_nat K)%nat
    /\ (count is_sleep evs + 1 = count is_click evs)%nat
    /\ (count is_scroll evs <= count is_click evs)%nat.
Proof.
  intros HK Hdelay.
  assert (Hd : sleep_accepts delay = true)
    by (apply day_long_delay_accepted; exact Hdelay).
  unfold safe_click. rewrite (range_first K HK).
  cbn [safe_click_loop]. unfold bind.
  destruct (safe_click_attempt_counts el K delay 0 w Hd) as (e1 & E1 & C1 & S1 & X1).
  simpl in S1.
  assert (Hpos : Forall (fun a => 0 < a) (map Z.of_nat (seq 1 (Z.to_nat (K - 1))))).
  { apply Forall_forall. intros a Ha. apply in_map_iff in Ha.
    destruct Ha as (i & <- & Hi). apply in_seq in Hi. lia. }
  destruct (safe_click_attempt el K delay 0 w) as [[[b|]|e] w1]; simpl in E1 |- *.
  - exists e1. unfold ret. simpl. repeat split; try assumption; lia.
  - destruct (safe_click_loop_counts el K delay _ Hd Hpos w1)
      as (e2 & E2 & C2 & S2 & X2).
    rewrite length_map, length_seq in C2.
    exists (e1 ++ e2)%list. rewrite E2, E1, app_assoc.
    repeat rewrite count_app. repeat split; lia.
  - exists e1. repeat split; try assumption; lia.
Qed.

(** X10. A click that fails for another reason than an interception is
    retried as long as it is not the last attempt, without a scroll: when
    the first click raises such an error and the second goes through,
    [safe_click] returns [True] (budget of at least 2, delay from nothing
    to a day). *)
Theorem safe_click_retries_other_errors (K : Z) (el : element) (delay : Q)
  (w : world) (e : exn) (d1 d2 : D) :
  2 <= K ->
  (0 <= delay <= 86400)%Q ->
  click el (browser w) = (Raise e, d1) ->
  is_class ElementClickInterceptedException e = false ->
  click el d1 = (Ret tt, d2) ->
  safe_click el K delay w =
    (Ret true,
     {| browser := d2;
        events := events w
                  ++ [Call (click_call el);
                      Log ERROR ("Click failed: " ++ str e ++ ", attempt "
                                 ++ str_of_int (0 + 1) ++ "/" ++ str_of_int K);
                      Sleep delay;
                      Call (click_call el)] |}).
Proof.
  intros HK Hdelay H1 He H2.
  assert (Hd : sleep_accepts delay = true)
    by (apply day_long_delay_accepted; exact Hdelay).
  apply andb_true_iff in Hd. destruct Hd as [Hd0 Hd1].
  unfold safe_click. rewrite (range_first K) by lia.
  replace (Z.to_nat (K - 1)) with (S (Z.to_nat (K - 2))) by lia.
  cbn [seq map safe_click_loop].
  unfold safe_click_attempt at 1. unfold try_except, bind, when, ret, log, record.
  cbn [Z.ltb Z.compare]. rewrite call_eq, H1. cbn [fst snd]. rewrite He.
  replace (0 =? K - 1) with false by (symmetry; apply Z.eqb_neq; lia).
  unfold safe_click_attempt, try_except, bind, when, sleep, ret, record.
  rewrite Hd0, Hd1.
  cbn [Z.of_nat Pos.of_succ_nat Z.ltb Z.compare browser events].
  rewrite call_eq. cbn [browser events]. rewrite H2. cbn [fst snd].
  repeat rewrite <- app_assoc. reflexivity.
Qed.

(** X11. A scroll that fails ends [safe_click] at once: when the click is
    intercepted and the scroll into view raises, that exception leaves
    [safe_click] after a single click, whatever the budget. *)
Theorem safe_click_scroll_failure (K : Z) (el : element) (delay : Q)
  (w : world) (e e' : exn) (d1 d2 : D) :
  1 <= K ->
  click el (browser w) = (Raise e, d1) ->
  is_class ElementClickInterceptedException e = true ->
  execute_script scroll_script el d1 = (Raise e', d2) ->
  exists evs,
    safe_click el K delay w =
      (Raise e', {| browser := d2; events := (events w ++ evs)%list |})
    /\ count is_click evs = 1%nat.
Proof.
  intros HK H1 He H2. unfold safe_click. rewrite (range_first K HK).
  cbn [safe_click_loop].
  unfold safe_click_attempt, try_except, bind, when, ret, log, record.
  cbn [Z.ltb Z.compare]. rewrite call_eq, H1. cbn [fst snd]. rewrite He.
  rewrite call_eq. cbn [browser events]. rewrite H2. cbn [fst snd].
  repeat rewrite <- app_assoc. eexists. split; reflexivity.
Qed.

(** ** Page methods *)

(** A [try] whose only clause is [except Exception] with a handler that logs
    and returns never raises. *)
Lemma catch_all_returns {A} (m : M A) (msg : exn -> string) (a : A) (w : world) :
  exists b w',
    try_except m (except_Exception (fun e => log ERROR (msg e) ;; ret a)) w
    = (Ret b, w').
Proof.
  unfold try_except, except_Exception, bind, log, ret.
  destruct (m w) as [[b|e] w1]; eexists; eexists; reflexivity.
Qed.

(** X12. None of the ten page methods that wrap their body in
    [except Exception] ever raises: whatever the browser does, each of them
    returns a boolean. *)
Theorem page_methods_never_raise (self : BasePage) (key location : string)
  (w : world) :
  (exists b w', HomePage_navigate self w = (Ret b, w'))
  /\ (exists b w', HomePage_click_navigation_item self key w = (Ret b, w'))
  /\ (exists b w', HomePage_verify_career_blocks_displayed self w = (Ret b, w'))
  /\ (exists b w', CareersPage_navigate self w = (Ret b, w'))
  /\ (exists b w', CareersPage_accept_cookies self w = (Ret b, w'))
  /\ (exists b w', CareersPage_click_see_all_qa_jobs self w = (Ret b, w'))
  /\ (exists b w', CareersPage_select_location self location w = (Ret b, w'))
  /\ (exists b w', CareersPage_select_department self w = (Ret b, w'))
  /\ (exists b w', CareersPage_view_first_role self w = (Ret b, w')).
Proof.
  repeat split; apply catch_all_returns.
Qed.

(** [is_element_visible] by cases on what the wait answers. *)
Lemma is_element_visible_eq (self : BasePage) (loc : locator) (w : world) :
  is_element_visible self loc None w =
    (match fst (until_located (timeout self) (visibility_of_element_located loc)
                              (browser w)) with
     | Ret _ => Ret true
     | Raise e => if is_class TimeoutException e then Ret false else Raise e
     end,
     {| browser := snd (until_located (timeout self)
                          (visibility_of_element_located loc) (browser w));
        events := events w
                  ++ [Call (until_call (timeout self)
                                       (visibility_of_element_located loc))] |}).
Proof.
  unfold is_element_visible, try_except, except_class, bind, until_element, ret.
  cbn [py_or]. rewrite call_eq.
  destruct (until_located _ _ _) as [[el|e] d]; cbn [fst snd]; [reflexivity|].
  destruct (is_class TimeoutException e); reflexivity.
Qed.

(** [HomePage.is_loaded] by cases on what the wait for the logo answers. *)
Lemma HomePage_is_loaded_eq (self : BasePage) (w : world) :
  HomePage_is_loaded self w =
    (match fst (until_located (timeout self)
                  (visibility_of_element_located (CLASS_NAME, "navbar-brand"))
                  (browser w)) with
     | Ret _ => Ret true
     | Raise e => if is_class TimeoutException e then Ret false else Raise e
     end,
     {| browser := snd (until_located (timeout self)
                          (visibility_of_element_located (CLASS_NAME, "navbar-brand"))
                          (browser w));
        events := events w
                  ++ [Call (until_call (timeout self)
                              (visibility_of_element_located
                                 (CLASS_NAME, "navbar-brand")))] |}).
Proof.
  unfold HomePage_is_loaded, try_except, except_class.
  erewrite bind_Ret by reflexivity.
  unfold bind. rewrite is_element_visible_eq.
  destruct (until_located _ _ _) as [[el|e] d]; cbn [fst snd]; [reflexivity|].
  destruct (is_class TimeoutException e) eqn:He; [reflexivity|].
  rewrite He. reflexivity.
Qed.

(** X13. [HomePage.is_loaded] is one visibility wait for the logo and
    nothing else: [True] when the wait returns, [False] when it times out,
    and any other exception of the wait is raised to the caller.  Its own
    [except TimeoutException] clause never runs, so it never logs. *)
Theorem is_loaded_is_one_wait (self : BasePage) (w : world) :
  HomePage_is_loaded self w =
    (match fst (until_located (timeout self)
                  (visibility_of_element_located (CLASS_NAME, "navbar-brand"))
                  (browser w)) with
     | Ret _ => Ret true
     | Raise e => if is_class TimeoutException e then Ret false else Raise e
     end,
     {| browser := snd (until_located (timeout self)
                          (visibility_of_element_located (CLASS_NAME, "navbar-brand"))
                          (browser w));
        events := events w
                  ++ [Call (until_call (timeout self)
                              (visibility_of_element_located
                                 (CLASS_NAME, "navbar-brand")))] |}).
Proof.
  apply HomePage_is_loaded_eq.
Qed.

(** X14. A locator name that is not in the table makes
    [click_navigation_item] return [False] without a single call to the
    browser; the [KeyError] is caught and logged, after the name that was
    asked for. *)
Theorem click_navigation_item_unknown_key (self : BasePage) (key : string)
  (w : world) :
  dict_get HomePage_LOCATORS key = None ->
  exists text,
    HomePage_click_navigation_item self key w =
      (Ret false, record (Log ERROR ("Failed to click " ++ key ++ ": " ++ text)) w).
Proof.
  intros H. unfold HomePage_click_navigation_item, try_except, except_Exception,
    bind, getitem.
  rewrite H. eexists. reflexivity.
Qed.



(** X16. [verify_career_blocks_displayed] does not stop at the first block
    that is missing: as long as each wait returns or times out, it waits for
    all three blocks, in the order locations, teams, life at Insider, and
    returns whether all three showed up. *)
Theorem verify_career_blocks_waits_for_all (self : BasePage) (w : world)
  (r1 r2 r3 : outcome exn element) (d1 d2 d3 : D) (v1 v2 v3 : bool) :
  let c1 := visibility_of_element_located
              (XPATH, "//h3[contains(text(), 'Our Locations')]") in
  let c2 := visibility_of_element_located
              (XPATH, "//h3[contains(text(), 'Find your calling')]") in
  let c3 := visibility_of_element_located
              (XPATH, "//h2[contains(text(), 'Life at Insider')]") in
  until_located (timeout self) c1 (browser w) = (r1, d1) -> seen r1 = Some v1 ->
  until_located (timeout self) c2 d1 = (r2, d2) -> seen r2 = Some v2 ->
  until_located (timeout self) c3 d2 = (r3, d3) -> seen r3 = Some v3 ->
  HomePage_verify_career_blocks_displayed self w =
    (Ret (v1 && v2 && v3),
     {| browser := d3;
        events := events w ++ [Call (until_call (timeout self) c1);
                               Call (until_call (timeout self) c2);
                               Call (until_call (timeout self) c3)] |}).
Proof.
  intros c1 c2 c3 H1 S1 H2 S2 H3 S3.
  assert (Hvis : forall (loc : locator) (w0 : world) r d v,
             until_located (timeout self) (visibility_of_element_located loc)
                           (browser w0) = (r, d) ->
             seen r = Some v ->
             is_element_visible self loc None w0 =
               (Ret v, {| browser := d;
                          events := events w0
                                    ++ [Call (until_call (timeout self)
                                                (visibility_of_element_located loc))] |})).
  { intros loc w0 r d v Hu Hs. rewrite is_element_visible_eq, Hu. cbn [fst snd].
    unfold seen in Hs. destruct r as [el|e].
    - now injection Hs as <-.
    - destruct (is_class TimeoutException e); [now injection Hs as <- | discriminate]. }
  unfold HomePage_verify_career_blocks_displayed, try_except.
  erewrite bind_Ret by reflexivity.
  erewrite bind_Ret by (eapply Hvis; [exact H1 | exact S1]).
  erewrite bind_Ret by reflexivity.
  erewrite bind_Ret by (eapply Hvis; [exact H2 | exact S2]).
  erewrite bind_Ret by reflexivity.
  erewrite bind_Ret by (eapply Hvis; [exact H3 | exact S3]).
  unfold ret, py_all. cbn [forallb events browser].
  repeat rewrite <- app_assoc. rewrite andb_true_r, andb_assoc. reflexivity.
Qed.

(** ** [view_first_role], path by path *)

(** X17. [view_first_role] gives up before clicking anything when there is
    no "View Role" button, and when more or fewer than one context is open:
    it returns [False] and has only looked at the page. *)
Theorem view_first_role_guards (self : BasePage) (w : world) :
  let loc := (CSS_SELECTOR, ".position-list-item-wrapper .btn.btn-navy") in
  (forall d1,
      find_elements loc (browser w) = (Ret [], d1) ->
      CareersPage_view_first_role self w =
        (Ret false,
         {| browser := d1;
            events := events w
                      ++ [Sleep 10%Q; Call (find_elements_call loc);
                          Log ERROR "No 'View Role' buttons found"] |}))
  /\ (forall b bs orig hs d1 d2 d3,
      find_elements loc (browser w) = (Ret (b :: bs), d1) ->
      current_window_handle d1 = (Ret orig, d2) ->
      window_handles d2 = (Ret hs, d3) ->
      List.length hs <> 1%nat ->
      CareersPage_view_first_role self w =
        (Ret false,
         {| browser := d3;
            events := events w
                      ++ [Sleep 10%Q; Call (find_elements_call loc); Sleep 10%Q;
                          Call current_window_handle_call; Call window_handles_call;
                          Log WARNING "Multiple tabs open before clicking View Role"] |})).
Proof.
  intros loc. split.
  - intros d1 Hfind. unfold CareersPage_view_first_role, try_except.
    erewrite bind_Ret by reflexivity.
    erewrite bind_Ret by reflexivity.
    erewrite bind_Ret by (apply call_Ret; exact Hfind). cbv beta iota.
    unfold bind, log, ret, record. cbn [events browser fst snd].
    repeat rewrite <- app_assoc. reflexivity.
  - intros b bs orig hs d1 d2 d3 Hfind Hcur Hall Hlen.
    unfold CareersPage_view_first_role, try_except.
    erewrite bind_Ret by reflexivity.
    erewrite bind_Ret by reflexivity.
    erewrite bind_Ret by (apply call_Ret; exact Hfind). cbv beta iota.
    erewrite bind_Ret by reflexivity.
    erewrite bind_Ret by (apply call_Ret; exact Hcur).
    erewrite bind_Ret by (apply call_Ret; exact Hall).
    replace (List.length hs =? 1)%nat with false
      by (symmetry; apply Nat.eqb_neq; exact Hlen).
    cbn [negb]. unfold bind, log, ret, sleep, record. cbn [events browser fst snd].
    repeat rewrite <- app_assoc. reflexivity.
Qed.

(** X18. On the path where everything goes well -- one context open, the
    click opens a second one, the Lever address shows up -- the last two
    calls of [view_first_role] close the new context and switch back to the
    context that was active at the start; it returns [True]. *)
Theorem view_first_role_success (self : BasePage) (w : world)
  (b : element) (bs : list element) (orig h new : handle) (hs : list handle)
  (appeared : bool) (d1 d2 d3 d4 d5 d6 d7 d8 d9 d10 : D) :
  let loc := (CSS_SELECTOR, ".position-list-item-wrapper .btn.btn-navy") in
  find_elements loc (browser w) = (Ret (b :: bs), d1) ->
  current_window_handle d1 = (Ret orig, d2) ->
  window_handles d2 = (Ret [h], d3) ->
  click b d3 = (Ret tt, d4) ->
  until_true (timeout self) more_than_one_window d4 = (Ret true, d5) ->
  window_handles d5 = (Ret hs, d6) ->
  hd_error (filter (fun x => negb (String.eqb x orig)) hs) = Some new ->
  switch_to_window new d6 = (Ret tt, d7) ->
  until_true (timeout self) (url_contains "jobs.lever.co") d7 = (Ret appeared, d8) ->
  close d8 = (Ret tt, d9) ->
  switch_to_window orig d9 = (Ret tt, d10) ->
  CareersPage_view_first_role self w =
    (Ret true,
     {| browser := d10;
        events :=
          events w
          ++ [Sleep 10%Q; Call (find_elements_call loc); Sleep 10%Q;
              Call current_window_handle_call; Call window_handles_call;
              Call (click_call b);
              Call (until_call (timeout self) more_than_one_window);
              Call window_handles_call;
              Call (switch_to_window_call new);
              Call (until_call (timeout self) (url_contains "jobs.lever.co"));
              Log INFO "Successfully navigated to Lever Application form";
              Call close_call;
              Call (switch_to_window_call orig)] |}).
Proof.
  intros loc Hfind Hcur Hone Hclick Hwait Hall Hnew Hswitch Hurl Hclose Hback.
  destruct (filter (fun x => negb (String.eqb x orig)) hs) as [|new' rest] eqn:Hf;
    [discriminate Hnew|]. injection Hnew as ->.
  unfold CareersPage_view_first_role, try_except.
  erewrite bind_Ret by reflexivity.
  erewrite bind_Ret by reflexivity.
  erewrite bind_Ret by (apply call_Ret; exact Hfind). cbv beta iota.
  erewrite bind_Ret by reflexivity.
  erewrite bind_Ret by (apply call_Ret; exact Hcur).
  erewrite bind_Ret by (apply call_Ret; exact Hone).
  cbn [List.length Nat.eqb negb]. cbv beta iota.
  erewrite bind_Ret by reflexivity.
  erewrite bind_Ret by (apply safe_click_default_clicked; exact Hclick).
  erewrite bind_Ret by (apply call_Ret; exact Hwait).
  cbn [negb]. cbv beta iota.
  erewrite bind_Ret by (apply call_Ret; exact Hall).
  rewrite Hf.
  erewrite bind_Ret by reflexivity.
  erewrite bind_Ret by (apply call_Ret; exact Hswitch).
  erewrite bind_Ret
    by (unfold wait_for_url_contains, try_except;
        erewrite bind_Ret by (apply call_Ret; exact Hurl); reflexivity).
  cbn [negb]. cbv beta iota.
  erewrite bind_Ret by reflexivity.
  erewrite bind_Ret by (apply call_Ret; exact Hclose).
  erewrite bind_Ret by (apply call_Ret; exact Hback).
  unfold ret, log, record. cbn [events browser fst snd].
  repeat rewrite <- app_assoc. reflexivity.
Qed.

(** ** Cases and runs *)

Lemma run_test_step_returns (step : TestStep) (w : world) :
  exists b w', run_test_step step w = (Ret b, w').
Proof.
  rewrite run_test_step_eq.
  destruct (function step _) as [[[|]|e] w1]; eexists; eexists; reflexivity.
Qed.

(** X19. A test method never raises; the value it returns and the verdict it
    leaves under its key agree ([True] with [PASSED], [False] with
    [FAILED]); and it returns [True] exactly when [run_test_step] answered
    [True] for every step of the case. *)
Theorem for_steps_verdict (case : string) (steps : list TestStep) (t : test) :
  exists b t',
    for_steps case steps t = (Ret b, t')
    /\ dict_get (test_results t') case = Some (verdict_of b)
    /\ (b = true <-> exists w', all_pass steps (tworld t) = Some w').
Proof.
  revert t. induction steps as [|s steps IH]; intros t.
  - exists true. eexists. split; [reflexivity|]. simpl.
    split; [apply dict_get_set|].
    split; [intros _; eexists; reflexivity | reflexivity].
  - cbn [for_steps all_pass]. unfold bind. rewrite lift_eq.
    destruct (run_test_step_returns s (tworld t)) as (b & w1 & Hs).
    rewrite Hs. cbn [fst snd]. destruct b; cbn [negb].
    + destruct (IH {| tworld := w1; test_results := test_results t |})
        as (b' & t' & Hrun & Hget & Hiff).
      exists b', t'. split; [exact Hrun|]. split; [exact Hget|]. exact Hiff.
    + exists false. eexists. split; [reflexivity|]. simpl.
      split; [apply dict_get_set|].
      split; [discriminate | intros [w' H]; discriminate H].
Qed.

(** X20. When the page loads but the logo never becomes visible, the first
    case fails at its first step: one step is started, the page is fetched,
    the wait times out, the failure is logged and [FAILED] is recorded; the
    three other steps are not started. *)
Theorem homepage_case_fails_on_missing_logo (t : test) (e : exn) (d1 d2 : D) :
  let logo := visibility_of_element_located (CLASS_NAME, "navbar-brand") in
  get HomePage_URL (browser (tworld t)) = (Ret tt, d1) ->
  until_located 20 logo d1 = (Raise e, d2) ->
  is_class TimeoutException e = true ->
  test_homepage_loading t =
    (Ret false,
     {| tworld :=
          {| browser := d2;
             events := events (tworld t)
                       ++ [Log INFO "Executing step: Navigating to homepage";
                           Call (get_call HomePage_URL);
                           Call (until_call 20 logo);
                           Log ERROR "Step failed: Navigating to homepage";
                           SetItem "Homepage Test" FAILED] |};
        test_results := dict_set (test_results t) "Homepage Test" FAILED |}).
Proof.
  intros logo Hget Hwait He.
  unfold test_homepage_loading, homepage_steps. cbn [for_steps].
  unfold bind at 1. rewrite lift_eq, run_test_step_eq.
  cbn [function description].
  assert (Hnav :
    HomePage_navigate HomePage_init
      (record (Log INFO ("Executing step: " ++ "Navigating to homepage")) (tworld t)) =
    (Ret false,
     {| browser := d2;
        events := events (tworld t)
                  ++ [Log INFO "Executing step: Navigating to homepage";
                      Call (get_call HomePage_URL);
                      Call (until_call 20 logo)] |})).
  { unfold HomePage_navigate, try_except.
    erewrite bind_Ret by (apply call_Ret; exact Hget).
    rewrite HomePage_is_loaded_eq. cbn [browser events timeout HomePage_init
      BasePage_init].
    fold logo. rewrite Hwait. cbn [fst snd]. rewrite He.
    unfold record. cbn [events]. repeat rewrite <- app_assoc. reflexivity. }
  rewrite Hnav. cbn [fst snd negb]. unfold setitem, bind, ret, record.
  cbn [events browser tworld test_results].
  repeat rewrite <- app_assoc. reflexivity.
Qed.

(** The body of [run_tests] up to the [finally] block, once the session has
    been created: it never raises, and the run ends as the [finally] block
    ends. *)
Lemma run_tests_reaches_finally (headless : bool) (t : test) (d : D) :
  Remote "http://chrome:4444/wd/hub" (chrome_arguments headless)
         (browser (tworld t)) = (Ret tt, d) ->
  exists t3 evs,
    events (tworld t3) = (events (tworld t) ++ evs)%list
    /\ quit_calls evs = 0%nat
    /\ run_tests headless t =
         match bind teardown (fun _ => lift (log INFO "Test execution completed!")) t3
         with
         | (Ret _, t'') => (Ret tt, t'')
         | (Raise e, t'') => (Raise e, t'')
         end.
Proof.
  intros HR.
  pose (t0 := {| tworld := started headless t d; test_results := ([] : dict TestResult) |}).
  destruct (for_steps_trace "Homepage Test" homepage_steps homepage_steps_emit t0)
    as (b1 & l1 & t1 & E1 & Ev1 & F1 & R1 & _).
  destruct (for_steps_trace "QA Jobs Test" qa_jobs_steps qa_jobs_steps_emit t1)
    as (b2 & l2 & t2 & E2 & Ev2 & F2 & R2 & _).
  simpl in R1. rewrite R1 in R2. simpl in R2.
  destruct (page_events_quiet l1 F1) as [_ Q1].
  destruct (page_events_quiet l2 F2) as [_ Q2].
  exists {| tworld :=
              snd (report (test_results t2)
                     (record (Log INFO (nl ++ "Test Results:")) (tworld t2)));
            test_results := test_results t2 |}.
  eexists. split; [|split].
  - cbn [tworld]. rewrite R2. simpl. rewrite Ev2, Ev1. unfold t0, started, record.
    cbn [tworld events]. repeat (rewrite <- app_assoc; simpl). reflexivity.
  - simpl. repeat (rewrite quit_calls_app; simpl). rewrite Q1, Q2. reflexivity.
  - unfold run_tests. rewrite (bind_Ret _ _ _ _ _ (init_returns headless t d HR)).
    unfold try_finally.
    erewrite bind_Ret by (rewrite lift_eq; reflexivity).
    erewrite bind_Ret by (exact E1).
    erewrite bind_Ret by (exact E2).
    erewrite bind_Ret by (rewrite lift_eq; reflexivity).
    rewrite lift_eq. simpl. rewrite report_returns. reflexivity.
Qed.

(** X21. Once the session exists, how [run_tests] ends depends on [quit]
    alone, not on the verdicts: when [quit] returns, [run_tests] returns and
    its last action is the closing log line; when [quit] raises, that
    exception is what [run_tests] raises, and the closing line is not
    logged.  Either way [quit] was called once. *)
Theorem run_tests_ends_as_quit_ends (headless : bool) (t : test) (d : D) :
  Remote "http://chrome:4444/wd/hub" (chrome_arguments headless)
         (browser (tworld t)) = (Ret tt, d) ->
  exists dq evs t',
    events (tworld t') = (events (tworld t) ++ evs)%list
    /\ quit_calls evs = 1%nat
    /\ ((quit dq = (Ret tt, browser (tworld t'))
         /\ run_tests headless t = (Ret tt, t')
         /\ last evs (Sleep 0%Q) = Log INFO "Test execution completed!")
        \/ (exists e,
              quit dq = (Raise e, browser (tworld t'))
              /\ run_tests headless t = (Raise e, t')
              /\ last evs (Sleep 0%Q) = Call quit_call)).
Proof.
  intros HR.
  destruct (run_tests_reaches_finally headless t d HR) as (t3 & evs & Ev & Q & Hrun).
  exists (browser (tworld t3)).
  unfold bind, teardown in Hrun. rewrite lift_eq, call_eq in Hrun.
  destruct (quit (browser (tworld t3))) as [[[]|e] dq'] eqn:Hq; cbn [fst snd] in Hrun.
  - rewrite lift_eq in Hrun. cbn [fst snd log record tworld events browser] in Hrun.
    exists (evs ++ [Call quit_call; Log INFO "Test execution completed!"])%list.
    refine (ex_intro _ _ (conj _ (conj _ (or_introl (conj _ (conj Hrun _)))))).
    + cbn [tworld events record]. rewrite Ev. repeat rewrite <- app_assoc. reflexivity.
    + rewrite quit_calls_app, Q. reflexivity.
    + reflexivity.
    + change [Call quit_call; Log INFO "Test execution completed!"]
        with ([Call quit_call] ++ [Log INFO "Test execution completed!"])%list.
      rewrite app_assoc. apply last_last.
  - exists (evs ++ [Call quit_call])%list.
    refine (ex_intro _ _ (conj _ (conj _ (or_intror
              (ex_intro _ e (conj _ (conj Hrun _))))))).
    + cbn [tworld events]. rewrite Ev. repeat rewrite <- app_assoc. reflexivity.
    + rewrite quit_calls_app, Q. reflexivity.
    + reflexivity.
    + apply last_last.
Qed.

(** X22. When the session cannot be created, [run_tests] raises the error of
    the driver right away: no step is started, no verdict is written, and
    [quit] is not called, the constructor being outside the [try]. *)
Theorem run_tests_without_session (headless : bool) (t : test) (e : exn) (d : D) :
  Remote "http://chrome:4444/wd/hub" (chrome_arguments headless)
         (browser (tworld t)) = (Raise e, d) ->
  exists evs t',
    run_tests headless t = (Raise e, t')
    /\ events (tworld t') = (events (tworld t) ++ evs)%list
    /\ quit_calls evs = 0%nat
    /\ writes_of evs = []
    /\ count is_step_start evs = 0%nat
    /\ test_results t' = test_results t.
Proof.
  intros HR. rewrite (init_raises headless t e d HR).
  eexists; eexists. split; [reflexivity|].
  cbn [tworld events test_results]. split; [reflexivity|]. repeat split.
Qed.

(** X23. The report is one [INFO] line for each entry of the mapping, in
    the order of the mapping, made of the name of the case, the name of the
    verdict and a glyph; the glyph is the check mark for [PASSED] and the
    cross for anything else, [SKIPPED] included.  Reporting does not touch
    the browser. *)
Theorem report_logs_one_line_per_entry (items : list (string * TestResult))
  (w : world) :
  report items w =
    (Ret tt,
     {| browser := browser w;
        events := events w ++ map (fun entry => Log INFO (report_line entry)) items |})
  /\ (forall k, report_line (k, PASSED) = k ++ ": " ++ "PASSED" ++ " " ++ "✅")
  /\ (forall k v, v <> PASSED ->
        report_line (k, v) = k ++ ": " ++ name_of v ++ " " ++ "❌").
Proof.
  split; [|split].
  - revert w. induction items as [|[k v] items IH]; intros w.
    + simpl. rewrite app_nil_r. destruct w; reflexivity.
    + cbn [report map]. unfold bind, log, record. rewrite IH.
      cbn [browser events]. rewrite <- app_assoc. reflexivity.
  - reflexivity.
  - intros k v Hv. unfold report_line. cbn [fst snd].
    destruct v; [contradiction | reflexivity | reflexivity].
Qed.

(** X24. The session belongs to the run: no step of either case creates a
    session, calls [quit] or writes a verdict, whatever the browser does. *)
Theorem steps_leave_session_alone (step : TestStep) (w : world) :
  In step (homepage_steps ++ qa_jobs_steps) ->
  exists evs,
    events (snd (function step w)) = (events w ++ evs)%list
    /\ quit_calls evs = 0%nat
    /\ writes_of evs = []
    /\ (forall c a, ~ In (Call (Remote_call c a)) evs).
Proof.
  intros Hin.
  assert (Hemits : emits (function step)).
  { apply in_app_or in Hin. destruct Hin as [Hin | Hin].
    - exact (proj1 (Forall_forall _ _) homepage_steps_emit step Hin).
    - exact (proj1 (Forall_forall _ _) qa_jobs_steps_emit step Hin). }
  destruct (Hemits w) as (evs & Hev & Hpage).
  destruct (page_events_quiet evs Hpage) as [Hw Hq].
  exists evs. repeat split; try assumption.
  intros c a Hc. exact (proj1 (Forall_forall _ _) Hpage _ Hc).
Qed.

End Pages.

(** ** Runs on the scripted browsers *)

Import ScriptedBrowser.


Lemma safe_click_without_attempts_witness :
  safe_click 0%nat (-2) 1%Q (world_of quiet) = (Ret false, world_of quiet).
Proof.
  apply (@safe_click_without_attempts script driver (-2) 0%nat 1%Q (world_of quiet)).
  lia.
Defined.

(** Three attempts, all intercepted: three clicks, two sleeps. *)
Lemma safe_click_bounds_witness :
  exists evs,
    events (snd (safe_click 0%nat 3 1%Q
                   (world_of (with_clicks [Raise intercepted_error;
                                           Raise intercepted_error;
                                           Raise intercepted_error] quiet))))
    = evs
    /\ (count is_click evs <= 3)%nat
    /\ (count is_sleep evs + 1 = count is_click evs)%nat.
Proof.
  assert (HK : 1 <= 3) by lia.
  assert (Hdelay : (0 <= 1 <= 86400)%Q) by (split; unfold Qle; simpl; lia).
  destruct (@safe_click_bounds script driver 3 0%nat 1%Q
              (world_of (with_clicks [Raise intercepted_error;
                                      Raise intercepted_error;
                                      Raise intercepted_error] quiet))
              HK Hdelay) as (evs & Hev & [_ Hc] & Hs & _).
  exists evs. split; [exact Hev|]. split; [exact Hc | exact Hs].
Defined.

(** A stale element on the first click, a good second click. *)
Lemma safe_click_retries_other_errors_witness :
  fst (safe_click 0%nat 2 1%Q
         (world_of (with_clicks [Raise stale_error; Ret tt] quiet))) = Ret true.
Proof.
  set (w := world_of (with_clicks [Raise stale_error; Ret tt] quiet)).
  assert (H1 : click 0%nat (Insider.browser w)
               = (Raise stale_error, with_clicks [Ret tt] quiet)) by reflexivity.
  assert (H2 : click 0%nat (with_clicks [Ret tt] quiet) = (Ret tt, quiet))
    by reflexivity.
  assert (HK : 2 <= 2) by lia.
  assert (Hdelay : (0 <= 1 <= 86400)%Q) by (split; unfold Qle; simpl; lia).
  rewrite (@safe_click_retries_other_errors script driver 2 0%nat 1%Q w stale_error
             _ _ HK Hdelay H1 eq_refl H2).
  reflexivity.
Defined.

(** The overlay intercepts the click and the page is gone when scrolling. *)
Lemma safe_click_scroll_failure_witness :
  fst (safe_click 0%nat 10 1%Q
         (world_of (with_clicks [Raise intercepted_error]
                      (with_scrolls [Raise unreachable_error] quiet))))
  = Raise unreachable_error.
Proof.
  pose (s0 := with_clicks [Raise intercepted_error]
                (with_scrolls [Raise unreachable_error] quiet)).
  assert (H1 : click 0%nat (Insider.browser (world_of s0))
               = (Raise intercepted_error, with_scrolls [Raise unreachable_error] quiet))
    by reflexivity.
  assert (H2 : execute_script scroll_script 0%nat
                 (with_scrolls [Raise unreachable_error] quiet)
               = (Raise unreachable_error, quiet)) by reflexivity.
  destruct (@safe_click_scroll_failure script driver 10 0%nat 1%Q (world_of s0)
              intercepted_error unreachable_error _ _ ltac:(lia) H1 eq_refl H2)
    as (evs & Hrun & _).
  fold s0. rewrite Hrun. reflexivity.
Defined.

Lemma click_navigation_item_unknown_key_witness :
  fst (HomePage_click_navigation_item HomePage_init "pricing" (world_of quiet))
  = Ret false
  /\ Insider.browser
       (snd (HomePage_click_navigation_item HomePage_init "pricing" (world_of quiet)))
     = quiet.
Proof.
  assert (H : dict_get HomePage_LOCATORS "pricing" = None) by reflexivity.
  destruct (@click_navigation_item_unknown_key script driver HomePage_init "pricing"
              (world_of quiet) H) as [text Hrun].
  rewrite Hrun. split; reflexivity.
Defined.



(** The first block is missing: the two others are waited for all the
    same. *)
Lemma verify_career_blocks_waits_for_all_witness :
  let s0 := with_waits [Raise timeout_error; Ret 3%nat; Ret 4%nat] quiet in
  fst (HomePage_verify_career_blocks_displayed HomePage_init (world_of s0)) = Ret false
  /\ List.length
       (events (snd (HomePage_verify_career_blocks_displayed HomePage_init
                       (world_of s0)))) = 3%nat.
Proof.
  intros s0.
  rewrite (@verify_career_blocks_waits_for_all script driver HomePage_init (world_of s0)
             (Raise timeout_error) (Ret 3%nat) (Ret 4%nat)
             (with_waits [Ret 3%nat; Ret 4%nat] quiet) (with_waits [Ret 4%nat] quiet)
             quiet false true true
             eq_refl eq_refl eq_refl eq_refl eq_refl eq_refl).
  split; reflexivity.
Defined.

(** No button on the page; then a page with a button but two contexts. *)
Lemma view_first_role_guards_witness :
  fst (CareersPage_view_first_role CareersPage_init
         (world_of (with_page [] ["w0"] quiet))) = Ret false
  /\ count is_click
       (events (snd (CareersPage_view_first_role CareersPage_init
                       (world_of (with_page [0%nat] ["w0"; "w1"] quiet))))) = 0%nat.
Proof.
  destruct (@view_first_role_guards script driver CareersPage_init
              (world_of (with_page [] ["w0"] quiet))) as [Hnone _].
  destruct (@view_first_role_guards script driver CareersPage_init
              (world_of (with_page [0%nat] ["w0"; "w1"] quiet))) as [_ Htabs].
  split.
  - rewrite (Hnone _ eq_refl). reflexivity.
  - rewrite (Htabs 0%nat [] "w0" ["w0"; "w1"] _ _ _ eq_refl eq_refl eq_refl
               ltac:(simpl; lia)).
    reflexivity.
Defined.

(** The Lever form opens: the original context is active again. *)
Lemma view_first_role_success_witness :
  let r := CareersPage_view_first_role CareersPage_init
             (FakeBrowser.world_of FakeBrowser.lever_target) in
  fst r = Ret true /\ FakeBrowser.current (Insider.browser (snd r)) = "w0".
Proof.
  intros r. unfold r.
  set (s0 := FakeBrowser.lever_target).
  pose (s1 := snd (click 0%nat s0)).
  pose (s2 := snd (switch_to_window "w1" s1)).
  pose (s3 := snd (close s2)).
  pose (s4 := snd (switch_to_window "w0" s3)).
  rewrite (@view_first_role_success FakeBrowser.browser FakeBrowser.driver
             CareersPage_init (FakeBrowser.world_of s0) 0%nat [] "w0" "w0" "w1"
             ["w0"; "w1"] true s0 s0 s0 s1 s1 s1 s2 s2 s3 s4
             eq_refl eq_refl eq_refl eq_refl eq_refl eq_refl eq_refl eq_refl eq_refl
             eq_refl eq_refl).
  split; reflexivity.
Defined.

(** The logo never shows on the first scripted browser. *)
Lemma homepage_case_fails_on_missing_logo_witness :
  test_results
    (snd (test_homepage_loading (FakeBrowser.test_of FakeBrowser.blank_page)))
  = [("Homepage Test", FAILED)]
  /\ count is_step_start
       (events (tworld (snd (test_homepage_loading
                               (FakeBrowser.test_of FakeBrowser.blank_page)))))
     = 1%nat.
Proof.
  pose (d1 := snd (FakeBrowser.fake_get HomePage_URL FakeBrowser.blank_page)).
  rewrite (@homepage_case_fails_on_missing_logo FakeBrowser.browser FakeBrowser.driver
             (FakeBrowser.test_of FakeBrowser.blank_page)
             {| class_of := TimeoutException; str := "Message: " |} d1 d1
             eq_refl eq_refl eq_refl).
  split; reflexivity.
Defined.

(** [quit] fails on a session that ran both cases: it was called once. *)
Lemma run_tests_ends_as_quit_ends_witness :
  exists r t',
    run_tests false (test_of (with_session (Ret tt) (Raise unreachable_error) quiet))
    = (r, t')
    /\ quit_calls (events (tworld t')) = 1%nat.
Proof.
  pose (s0 := with_session (Ret tt) (Raise unreachable_error) quiet).
  assert (HR : Remote "http://chrome:4444/wd/hub" (chrome_arguments false)
                      (Insider.browser (tworld (test_of s0))) = (Ret tt, s0))
    by reflexivity.
  destruct (@run_tests_ends_as_quit_ends script driver false (test_of s0) s0 HR)
    as (dq & evs & t' & Hev & Hq & [(_ & Hrun & _) | (e & _ & Hrun & _)]).
  - exists (Ret tt), t'. split; [exact Hrun|]. rewrite Hev. exact Hq.
  - exists (Raise e), t'. split; [exact Hrun|]. rewrite Hev. exact Hq.
Defined.

(** The grid is down: nothing runs, nothing is released. *)
Lemma run_tests_without_session_witness :
  exists t',
    run_tests true (test_of (with_session (Raise unreachable_error) (Ret tt) quiet))
    = (Raise unreachable_error, t')
    /\ quit_calls (events (tworld t')) = 0%nat.
Proof.
  pose (s0 := with_session (Raise unreachable_error) (Ret tt) quiet).
  assert (HR : Remote "http://chrome:4444/wd/hub" (chrome_arguments true)
                      (Insider.browser (tworld (test_of s0)))
               = (Raise unreachable_error, s0)) by reflexivity.
  destruct (@run_tests_without_session script driver true (test_of s0)
              unreachable_error s0 HR) as (evs & t' & Hrun & Hev & Hq & _).
  exists t'. split; [exact Hrun|]. rewrite Hev. exact Hq.
Defined.

Lemma report_logs_one_line_per_entry_witness :
  report_line ("QA Jobs Test", SKIPPED) = "QA Jobs Test: SKIPPED ❌".
Proof.
  destruct (@report_logs_one_line_per_entry script [] (world_of quiet)) as (_ & _ & H).
  rewrite (H "QA Jobs Test" SKIPPED ltac:(discriminate)). reflexivity.
Defined.

Lemma steps_leave_session_alone_witness :
  quit_calls
    (events (snd (CareersPage_view_first_role CareersPage_init (world_of quiet))))
  = 0%nat.
Proof.
  pose (step := {| name := "view_role";
                   function := CareersPage_view_first_role CareersPage_init;
                   description := "Viewing first role" |} : TestStep (D := script)).
  assert (Hin : In step (homepage_steps ++ qa_jobs_steps)).
  { apply in_or_app. right. do 5 right. left. reflexivity. }
  destruct (@steps_leave_session_alone script driver step (world_of quiet) Hin)
    as (evs & Hev & Hq & _).
  change (CareersPage_view_first_role CareersPage_init (world_of quiet))
    with (function step (world_of quiet)).
  rewrite Hev. exact Hq.
Defined.

End InsiderMore.
